(** * BCCE developer onboarding: the two provisioning scripts

    A shallow embedding of [src/enterprise/onboard-developer.py] (module
    [OnboardDeveloper]) and [src/enterprise/unified-onboarding-enhanced.py]
    (module [UnifiedOnboarding]), followed by the properties the
    specification states about them.

    Modelling choices, all visible in the definitions below:
    - every boto3 client method the scripts use is a constructor of [call];
      what the service answers is given by a [world], which may depend on
      the calls made so far;
    - a method of the scripts is a computation in the monad [M]: it reads
      the world, extends the history of calls, and either returns or raises;
    - Python dictionaries of a fixed shape are records with the keys as
      fields, [None] is [None : option _], the departments of the
      configuration are a [gmap];
    - [logger] calls have no influence on control flow nor on returned data
      and are left out; the text of a [ValueError] is kept as a
      [validation_error] value. *)

From Stdlib Require Import Ascii String ZArith QArith List.
From stdpp Require Import gmap strings list pretty.
Close Scope Q_scope.
Open Scope string_scope.
Open Scope list_scope.

(** ** Python strings *)

(** [s.replace(old, new)] for a one-character [old]. *)
Fixpoint replace (old : ascii) (new : string) (s : string) : string :=
  match s with
  | EmptyString => EmptyString
  | String c s' =>
      if Ascii.eqb c old then new +:+ replace old new s'
      else String c (replace old new s')
  end.

(** The expression [email.replace('@', '-').replace('.', '-')], which both
    scripts repeat wherever a name is derived from an email. *)
Definition replace_at_dot (email : string) : string :=
  replace "."%char "-" (replace "@"%char "-" email).

(** [s.split(sep)] for a one-character [sep]; the list is never empty. *)
Fixpoint split (sep : ascii) (s : string) : list string :=
  match s with
  | EmptyString => [EmptyString]
  | String c s' =>
      if Ascii.eqb c sep then EmptyString :: split sep s'
      else match split sep s' with
           | [] => [String c EmptyString]
           | w :: ws => String c w :: ws
           end
  end.

Definition is_lower (c : ascii) : bool :=
  (97 <=? nat_of_ascii c)%nat && (nat_of_ascii c <=? 122)%nat.
Definition is_upper (c : ascii) : bool :=
  (65 <=? nat_of_ascii c)%nat && (nat_of_ascii c <=? 90)%nat.
Definition to_upper (c : ascii) : ascii :=
  if is_lower c then ascii_of_nat (nat_of_ascii c - 32) else c.
Definition to_lower (c : ascii) : ascii :=
  if is_upper c then ascii_of_nat (nat_of_ascii c + 32) else c.

(** [s.title()] on ASCII letters: a letter that follows a letter is lowered,
    any other letter is raised.  Bytes outside ASCII count as uncased, so
    that this is [str.title()] on ASCII strings only; the statements that
    give a value computed by [title] are restricted to such strings. *)
Fixpoint title_from (previous_is_cased : bool) (s : string) : string :=
  match s with
  | EmptyString => EmptyString
  | String c s' =>
      if is_lower c then
        String (if previous_is_cased then c else to_upper c) (title_from true s')
      else if is_upper c then
        String (if previous_is_cased then to_lower c else c) (title_from true s')
      else String c (title_from false s')
  end.
Definition title : string -> string := title_from false.

(** [s.lower()] on ASCII letters. *)
Fixpoint lower (s : string) : string :=
  match s with
  | EmptyString => EmptyString
  | String c s' => String (to_lower c) (lower s')
  end.

(** [str(n)] for an [int]. *)
Definition str_int (n : Z) : string := pretty n.

(** [str(v)] as an f-string renders a value that is a string or [None]. *)
Definition str_optional (v : option string) : string := default "None" v.

(** [bool(v)] for a value that is a string or [None]. *)
Definition truthy (v : option string) : bool :=
  match v with
  | None => false
  | Some s => negb (String.eqb s "")
  end.

Definition quote : string := String "034"%char EmptyString.
Definition newline : string := String "010"%char EmptyString.

(** A text given line by line, every line closed by a newline. *)
Definition unlines (ls : list string) : string :=
  foldr (fun l rest => l +:+ newline +:+ rest) "" ls.

(** [sep.join(ls)] *)
Fixpoint join (sep : string) (ls : list string) : string :=
  match ls with
  | [] => ""
  | [l] => l
  | l :: rest => l +:+ sep +:+ join sep rest
  end.

(** ** Exceptions *)

Inductive validation_error : Type :=
| invalid_department (department : string)
| invalid_access_tier (access_tier : string)
| user_already_exists (email : string)
| user_pool_id_not_found.

(** [ClientError name] is an exception raised inside a service client, [name]
    its class ([NoSuchEntityException], [UserNotFoundException], ...).
    [PolicyNotFoundError] is the class the specification names for a tier
    without policy; no code path below constructs it. *)
Inductive exn : Type :=
| ValueError (why : validation_error)
| KeyError (key : string)
| IndexError
| ClientError (name : string)
| PolicyNotFoundError.

Inductive result (A : Type) : Type :=
| Return (a : A)
| Raise (e : exn).
Arguments Return {A} a.
Arguments Raise {A} e.

Definition is_Return {A} (r : result A) : bool :=
  match r with Return _ => true | Raise _ => false end.

Definition result_map {A B} (f : A -> B) (r : result A) : result B :=
  match r with Return a => Return (f a) | Raise e => Raise e end.

(** ** The organization configuration file *)

Module Config.
Record department := {
  budget_limit : option Z;
  access_tiers : option (list string) }.
Record organization := {
  name : option string;
  region : option string;
  environment : option string }.
Record authentication := { user_pool_id : option string }.
Record governance := {
  analytics_bucket : option string;
  kms_key_id : option string }.
Record t := {
  organization_ : option organization;
  authentication_ : option authentication;
  governance_ : option governance;
  departments : option (gmap string department);
  domain : option string }.
End Config.

(** ** Requests sent to the services *)

Record bucket_policy := {
  Sid : string;
  Effect : string;
  Principal_AWS : string;
  Action : list string;
  Resource : list string }.

Record cost_budget := {
  BudgetName : string;
  BudgetLimit_Amount : string;
  BudgetLimit_Unit : string;
  TimeUnit : string;
  BudgetType : string;
  CostFilters_TagKey : list string;
  CostFilters_TagValue : list string }.

Record notification := {
  NotificationType : string;
  ComparisonOperator : string;
  Threshold : Q;
  ThresholdType : string }.

Record subscriber := {
  SubscriptionType : string;
  Address : string }.

Record notification_with_subscribers := {
  Notification : notification;
  Subscribers : list subscriber }.

(** The two JSON documents the unified script stores in the analytics bucket. *)
Record analytics_config := {
  analytics_user_email : string;
  analytics_department : string;
  analytics_access_tier : string;
  tracking_enabled : bool;
  metrics_namespace : string;
  analytics_bucket_name : option string;
  retention_days : Z }.

Record unified_event := {
  event_type : string;
  event_timestamp : string;
  event_developer_email : string;
  event_department : string;
  event_access_tier : string;
  event_use_case : string;
  event_idp_provider : string;
  event_user_pool_id : string;
  event_analytics_bucket : option string;
  event_organization : option string;
  event_onboarded_by : string }.

Inductive object_body : Type :=
| analytics_json (c : analytics_config)
| event_json (e : unified_event).

Inductive call : Type :=
| sts_get_caller_identity
| iam_get_user (UserName : string)
| iam_create_user (UserName : string) (Tags : list (string * string))
| iam_create_access_key (UserName : string)
| iam_attach_user_policy (UserName : string) (PolicyArn : option string)
| iam_add_user_to_group (GroupName UserName : string)
| iam_create_group (GroupName : string)
| iam_attach_group_policy (GroupName : string) (PolicyArn : option string)
| s3_create_bucket (Bucket LocationConstraint : string)
| s3_put_bucket_versioning (Bucket Status : string)
| s3_put_bucket_policy (Bucket : string) (Policy : bucket_policy)
| s3_put_object (Bucket Key : string) (Body : object_body)
    (SSEKMSKeyId : option string) (Tagging : option string)
| kms_create_key (Description KeyUsage : string) (Tags : list (string * string))
| cloudwatch_describe_log_groups (logGroupNamePrefix : string)
| budgets_create_budget (AccountId : string) (Budget : cost_budget)
    (NotificationsWithSubscribers : list notification_with_subscribers)
| cognito_admin_get_user (UserPoolId Username : string)
| cognito_admin_create_user (UserPoolId Username : string)
    (UserAttributes : list (string * string))
    (MessageAction TemporaryPassword : string) (ForceAliasCreation : bool)
| cognito_admin_add_user_to_group (UserPoolId Username GroupName : string)
| datetime_utcnow.

Record access_key := { AccessKeyId : string; SecretAccessKey : string }.
Record key_metadata := { KeyId : string; Arn : string }.

(** The part of a response the scripts read: [['Account']] of the caller
    identity, [['User']['Arn']] of a created IAM user, [['AccessKey']],
    [['KeyMetadata']], [['User']['Username']] of a created Cognito user. *)
Definition response (c : call) : Type :=
  match c with
  | sts_get_caller_identity => string
  | iam_create_user _ _ => string
  | iam_create_access_key _ => access_key
  | kms_create_key _ _ _ => key_metadata
  | cognito_admin_create_user _ _ _ _ _ _ => string
  | _ => unit
  end.

(** Calls that only look something up; every other call creates or changes
    a resource. *)
Definition is_provisioning (c : call) : bool :=
  match c with
  | sts_get_caller_identity | iam_get_user _ | cognito_admin_get_user _ _
  | cloudwatch_describe_log_groups _ | datetime_utcnow => false
  | _ => true
  end.

(** ** The world outside the script *)

Inductive outcome (A : Type) : Type :=
| returns (a : A)
| raises (name : string).
Arguments returns {A} a.
Arguments raises {A} name.

(** [datetime.utcnow()] is read as [.isoformat()] and, in one place, as
    [.strftime('%Y/%m/%d')]. *)
Record datetime := { isoformat : string; strftime_Ymd : string }.

Record world := {
  service : forall (history : list call) (c : call), outcome (response c);
  clock : list call -> datetime;
  environ : string -> option string;
  files : string -> option Config.t }.

(** ** Computations: read the world, extend the history, return or raise *)

Definition M (A : Type) : Type := world -> list call -> result A * list call.

Definition run {A} (m : M A) (w : world) (history : list call)
  : result A * list call := m w history.

#[global] Instance M_ret : MRet M := fun A a _ h => (Return a, h).

#[global] Instance M_bind : MBind M := fun A B k m w h =>
  match m w h with
  | (Return a, h') => k a w h'
  | (Raise e, h') => (Raise e, h')
  end.

Definition raise {A} (e : exn) : M A := fun _ h => (Raise e, h).

(** [try: body except Exception as e: handler e]; a handler for one class
    re-raises the others, see [except_class]. *)
Definition try_except {A} (body : M A) (handler : exn -> M A) : M A :=
  fun w h =>
    match body w h with
    | (Return a, h') => (Return a, h')
    | (Raise e, h') => handler e w h'
    end.

Definition is_class (name : string) (e : exn) : bool :=
  match e with
  | ClientError n => String.eqb n name
  | _ => false
  end.

(** [except <client>.exceptions.<name>: handler], any other exception
    propagating. *)
Definition except_class {A} (name : string) (handler : M A) (e : exn) : M A :=
  if is_class name e then handler else raise e.

(** A client method is called: the call enters the history and the world
    decides whether it returns or raises. *)
Definition request (c : call) : M (response c) := fun w h =>
  (match service w h c with
   | returns r => Return r
   | raises name => Raise (ClientError name)
   end, h ++ [c]).

(** [datetime.utcnow()]: the clock cannot fail; the reading is marked in the
    history by [datetime_utcnow], which is never sent to a service. *)
Definition utcnow : M datetime := fun w h =>
  (Return (clock w h), h ++ [datetime_utcnow]).

(** [os.getenv(name, default)] *)
Definition getenv (name default_ : string) : M string := fun w h =>
  (Return (default default_ (environ w name)), h).

(** [if cond: raise e] in front of further statements. *)
Definition raise_if (cond : bool) (e : exn) : M unit :=
  if cond then raise e else mret tt.

(** [m] extends the history, and only by calls that satisfy [P]. *)
Definition calls_only {A} (P : call -> Prop) (m : M A) : Prop :=
  forall w h, exists more, snd (run m w h) = h ++ more /\ Forall P more.

(** ** [onboard-developer.py] *)

Module OnboardDeveloper.

(** [self]: the configuration and the account of the caller; the service
    clients are the [world]. *)
Record BCCEDeveloperOnboarder := {
  config : Config.t;
  account_id : string }.

Record UserInfo := {
  username : string;
  user_arn : string;
  access_key_id : string;
  secret_access_key : string;
  policy_arn : option string;
  group_name : string }.

Record Resources := {
  s3_bucket : option string;
  kms_key_id : string;
  kms_key_arn : string;
  log_group_name : string }.

(** The budget stage returns one of two dictionaries:
    [{'budget_name', 'budget_limit', 'currency', 'notifications_enabled'}]
    or [{'budget_name': None, 'error': str(e)}]. *)
Inductive BudgetInfo : Type :=
| budget_created (name : string) (budget_limit : Z) (currency : string)
    (notifications_enabled : bool)
| budget_not_created (error : exn).

(** [budget_info['budget_name']] *)
Definition budget_name (b : BudgetInfo) : option string :=
  match b with
  | budget_created name _ _ _ => Some name
  | budget_not_created _ => None
  end.

Record Monitoring := {
  metric_namespace : string;
  dashboard_name : string;
  alerting_enabled : bool }.

Record BcceConfig := {
  profile : string;
  aws_region : string;
  aws_access_key_id : string;
  aws_secret_access_key : string;
  bcce_access_tier : string;
  bcce_department : string;
  bcce_developer_email : string;
  bcce_s3_bucket : option string;
  bcce_kms_key_id : string;
  bcce_monitoring_enabled : bool;
  bcce_monitoring_log_level : string }.

(** [getting_started] is kept as the values interpolated into the guide,
    in the order of their appearance; the fixed text around them is not
    reproduced. *)
Record ConfigFiles := {
  bcce_config : BcceConfig;
  env_vars : string;
  getting_started : list string }.

Record OnboardingResult := {
  status : string;
  developer_email : string;
  department : string;
  access_tier : string;
  user_info : UserInfo;
  resources : Resources;
  budget_info : BudgetInfo;
  monitoring : Monitoring;
  config_files : ConfigFiles;
  onboarded_at : string }.

Definition __init__ (organization_config : Config.t)
  : M BCCEDeveloperOnboarder :=
  account ← request sts_get_caller_identity;
  mret {| config := organization_config; account_id := account |}.

Definition _validate_onboarding_request (self : BCCEDeveloperOnboarder)
    (email department access_tier : string) : M unit :=
  let valid_departments := default ∅ (Config.departments (config self)) in
  raise_if (negb (bool_decide (is_Some (valid_departments !! department))))
    (ValueError (invalid_department department));;
  let valid_tiers := ["sandbox"; "integration"; "production"] in
  raise_if (negb (bool_decide (access_tier ∈ valid_tiers)))
    (ValueError (invalid_access_tier access_tier));;
  try_except
    (request (iam_get_user ("bcce-" +:+ replace_at_dot email));;
     raise (ValueError (user_already_exists email)))
    (except_class "NoSuchEntityException" (mret tt)).

Definition _get_policy_arn_for_tier (self : BCCEDeveloperOnboarder)
    (access_tier : string) : option string :=
  let policy_mapping : gmap string string :=
    {[ "sandbox" := "arn:aws:iam::" +:+ account_id self
                    +:+ ":policy/BCCE-Sandbox-Developer-Policy";
       "integration" := "arn:aws:iam::" +:+ account_id self
                    +:+ ":policy/BCCE-Integration-Developer-Policy";
       "production" := "arn:aws:iam::" +:+ account_id self
                    +:+ ":policy/BCCE-Production-Developer-Policy" ]} in
  policy_mapping !! access_tier.

Definition _create_developer_group (self : BCCEDeveloperOnboarder)
    (group_name department access_tier : string) : M unit :=
  request (iam_create_group group_name);;
  let policy_arn := _get_policy_arn_for_tier self access_tier in
  request (iam_attach_group_policy group_name policy_arn).

Definition _create_iam_user (self : BCCEDeveloperOnboarder)
    (email department access_tier : string) : M UserInfo :=
  let username := "bcce-" +:+ replace_at_dot email in
  user_response ← request (iam_create_user username
    [("Email", email); ("Department", department);
     ("AccessTier", access_tier); ("CreatedBy", "BCCE-Onboarding");
     ("Purpose", "BCCE-Developer-Access")]);
  keys_response ← request (iam_create_access_key username);
  let policy_arn := _get_policy_arn_for_tier self access_tier in
  request (iam_attach_user_policy username policy_arn);;
  let group_name :=
    "BCCE-" +:+ title department +:+ "-" +:+ title access_tier in
  try_except
    (request (iam_add_user_to_group group_name username))
    (except_class "NoSuchEntityException"
       (_create_developer_group self group_name department access_tier;;
        request (iam_add_user_to_group group_name username)));;
  mret {| username := username;
          user_arn := user_response;
          access_key_id := AccessKeyId keys_response;
          secret_access_key := SecretAccessKey keys_response;
          policy_arn := policy_arn;
          group_name := group_name |}.

(** The body of the [try] block of [_provision_developer_resources]. *)
Definition create_bucket (self : BCCEDeveloperOnboarder)
    (email bucket_name : string) : M unit :=
  request (s3_create_bucket bucket_name "us-west-2");;
  request (s3_put_bucket_versioning bucket_name "Enabled");;
  let bucket_policy :=
    {| Sid := "DeveloperAccess";
       Effect := "Allow";
       Principal_AWS := "arn:aws:iam::" +:+ account_id self
                        +:+ ":user/bcce-" +:+ replace_at_dot email;
       Action := ["s3:GetObject"; "s3:PutObject"; "s3:DeleteObject";
                  "s3:ListBucket"];
       Resource := ["arn:aws:s3:::" +:+ bucket_name;
                    "arn:aws:s3:::" +:+ bucket_name +:+ "/*"] |} in
  request (s3_put_bucket_policy bucket_name bucket_policy).

(** What follows the [try] block, [bucket_name] being by then the name or
    [None]. *)
Definition provision_key_and_logs (email department access_tier : string)
    (bucket_name : option string) : M Resources :=
  key_response ← request (kms_create_key
    ("BCCE encryption key for " +:+ email) "ENCRYPT_DECRYPT"
    [("Owner", email); ("Department", department);
     ("Purpose", "BCCE-Developer-Encryption")]);
  let log_group_name := "/bcce/developer/" +:+ replace_at_dot email in
  try_except
    (request (cloudwatch_describe_log_groups log_group_name))
    (fun _ => mret tt);;
  mret {| s3_bucket := bucket_name;
          kms_key_id := KeyId key_response;
          kms_key_arn := Arn key_response;
          log_group_name := log_group_name |}.

Definition _provision_developer_resources (self : BCCEDeveloperOnboarder)
    (email department access_tier : string) : M Resources :=
  let bucket_name :=
    "bcce-" +:+ replace_at_dot email +:+ "-"
    +:+ String.substring 0 8 (account_id self) in
  bucket_name ← try_except
    (create_bucket self email bucket_name;; mret (Some bucket_name))
    (fun _ => mret None);
  provision_key_and_logs email department access_tier bucket_name.

(** The local [budget_limits] of [_setup_budget_controls]. *)
Definition budget_limits : gmap string Z :=
  {[ "sandbox" := 100; "integration" := 500; "production" := 2000 ]}%Z.

(** The local [notifications] of [_setup_budget_controls]. *)
Definition notifications (self : BCCEDeveloperOnboarder)
    (email department : string) : list notification_with_subscribers :=
  [ {| Notification :=
         {| NotificationType := "ACTUAL";
            ComparisonOperator := "GREATER_THAN";
            Threshold := 80%Q;
            ThresholdType := "PERCENTAGE" |};
       Subscribers :=
         [ {| SubscriptionType := "EMAIL"; Address := email |} ] |};
    {| Notification :=
         {| NotificationType := "ACTUAL";
            ComparisonOperator := "GREATER_THAN";
            Threshold := 100%Q;
            ThresholdType := "PERCENTAGE" |};
       Subscribers :=
         [ {| SubscriptionType := "EMAIL"; Address := email |};
           {| SubscriptionType := "EMAIL";
              Address := department +:+ "-manager@"
                +:+ default "company.com" (Config.domain (config self)) |}
         ] |} ].

(** The locals [budget_limit], [budget_name] and [budget] of
    [_setup_budget_controls]. *)
Definition budget_limit_for (access_tier : string) : Z :=
  default 100%Z (budget_limits !! access_tier).

Definition budget_name_for (email : string) : string :=
  "BCCE-" +:+ replace_at_dot email.

Definition budget (email access_tier : string) : cost_budget :=
  {| BudgetName := budget_name_for email;
     BudgetLimit_Amount := str_int (budget_limit_for access_tier);
     BudgetLimit_Unit := "USD";
     TimeUnit := "MONTHLY";
     BudgetType := "COST";
     CostFilters_TagKey := ["Owner"];
     CostFilters_TagValue := [email] |}.

Definition _setup_budget_controls (self : BCCEDeveloperOnboarder)
    (email department access_tier : string) : M BudgetInfo :=
  let budget_limit := budget_limit_for access_tier in
  let budget_name := budget_name_for email in
  let budget := budget email access_tier in
  let notifications := notifications self email department in
  try_except
    (request (budgets_create_budget (account_id self) budget
                notifications);;
     mret (budget_created budget_name budget_limit "USD" true))
    (fun e => mret (budget_not_created e)).

Definition _setup_monitoring (self : BCCEDeveloperOnboarder)
    (email department : string) : Monitoring :=
  {| metric_namespace := "BCCE/Developer/" +:+ department;
     dashboard_name := "BCCE-" +:+ replace_at_dot email;
     alerting_enabled := true |}.

(** [seq[i]] *)
Definition getitem (seq : list string) (i : nat) : M string :=
  match seq !! i with
  | Some x => mret x
  | None => raise IndexError
  end.

Definition _generate_config_files (self : BCCEDeveloperOnboarder)
    (email : string) (user_info : UserInfo) (resources : Resources)
    (access_tier : string) : M ConfigFiles :=
  domain ← getitem (split "@"%char email) 1;
  department ← getitem (split "."%char domain) 0;
  let bcce_config :=
    {| profile := "default";
       aws_region := "us-east-1";
       aws_access_key_id := access_key_id user_info;
       aws_secret_access_key := secret_access_key user_info;
       bcce_access_tier := access_tier;
       bcce_department := department;
       bcce_developer_email := email;
       bcce_s3_bucket := s3_bucket resources;
       bcce_kms_key_id := kms_key_id resources;
       bcce_monitoring_enabled := true;
       bcce_monitoring_log_level := "INFO" |} in
  now ← utcnow;
  let env_vars := unlines
    [ "# BCCE Developer Environment Configuration";
      "# Generated on " +:+ isoformat now;
      "";
      "export AWS_ACCESS_KEY_ID=" +:+ quote
        +:+ access_key_id user_info +:+ quote;
      "export AWS_SECRET_ACCESS_KEY=" +:+ quote
        +:+ secret_access_key user_info +:+ quote;
      "export AWS_REGION=" +:+ quote +:+ "us-east-1" +:+ quote;
      "export BCCE_ACCESS_TIER=" +:+ quote +:+ access_tier +:+ quote;
      "export BCCE_DEVELOPER_EMAIL=" +:+ quote +:+ email +:+ quote;
      "export BCCE_S3_BUCKET=" +:+ quote
        +:+ str_optional (s3_bucket resources) +:+ quote;
      "export BCCE_KMS_KEY_ID=" +:+ quote
        +:+ kms_key_id resources +:+ quote;
      "";
      "# Usage tracking (optional)";
      "export BCCE_ENABLE_ANALYTICS=" +:+ quote +:+ "true" +:+ quote;
      "export BCCE_BUDGET_ALERTS=" +:+ quote +:+ "true" +:+ quote ] in
  let getting_started :=
    [ title access_tier;
      str_optional (s3_bucket resources);
      kms_key_id resources ] in
  mret {| bcce_config := bcce_config;
          env_vars := env_vars;
          getting_started := getting_started |}.

(** Only writes to the log. *)
Definition _send_welcome_email (self : BCCEDeveloperOnboarder)
    (email manager_email : string) (config_files : ConfigFiles)
    (access_tier use_case : string) : M unit :=
  mret tt.

(** Builds [event_data], reading the clock and [USER], and writes it to
    the log. *)
Definition _log_onboarding_event (self : BCCEDeveloperOnboarder)
    (email department access_tier use_case : string) : M unit :=
  _ ← utcnow;
  _ ← getenv "USER" "system";
  mret tt.

Definition onboard_developer (self : BCCEDeveloperOnboarder)
    (email department access_tier manager_email use_case : string)
  : M OnboardingResult :=
  try_except
    (_validate_onboarding_request self email department access_tier;;
     user_info ← _create_iam_user self email department access_tier;
     resources ←
       _provision_developer_resources self email department access_tier;
     budget_info ← _setup_budget_controls self email department access_tier;
     let monitoring := _setup_monitoring self email department in
     config_files ←
       _generate_config_files self email user_info resources access_tier;
     _send_welcome_email self email manager_email config_files
       access_tier use_case;;
     _log_onboarding_event self email department access_tier use_case;;
     now ← utcnow;
     mret {| status := "success";
             developer_email := email;
             department := department;
             access_tier := access_tier;
             user_info := user_info;
             resources := resources;
             budget_info := budget_info;
             monitoring := monitoring;
             config_files := config_files;
             onboarded_at := isoformat now |})
    (fun e => raise e).

(** The parsed command line. *)
Record Namespace := {
  arg_email : string;
  arg_department : string;
  arg_access_tier : string;
  arg_manager_email : string;
  arg_use_case : string;
  arg_config : string;
  arg_dry_run : bool }.

(** [main] from the parsed arguments on; the value is the exit status of
    the process: 2 when [argparse] rejects the tier, 1 after [sys.exit(1)]
    or an uncaught exception, 0 otherwise. *)
Definition main (args : Namespace) (w : world) (h : list call)
  : Z * list call :=
  if negb (bool_decide
       (arg_access_tier args ∈ ["sandbox"; "integration"; "production"]))
  then (2%Z, h)
  else
    match files w (arg_config args) with
    | None => (1%Z, h)
    | Some org_config =>
        match run (__init__ org_config) w h with
        | (Raise _, h1) => (1%Z, h1)
        | (Return onboarder, h1) =>
            if arg_dry_run args then
              match run (_validate_onboarding_request onboarder
                           (arg_email args) (arg_department args)
                           (arg_access_tier args)) w h1 with
              | (Return _, h2) => (0%Z, h2)
              | (Raise _, h2) => (1%Z, h2)
              end
            else
              match run (onboard_developer onboarder
                           (arg_email args) (arg_department args)
                           (arg_access_tier args) (arg_manager_email args)
                           (arg_use_case args)) w h1 with
              | (Return _, h2) => (0%Z, h2)
              | (Raise _, h2) => (1%Z, h2)
              end
        end
    end.

End OnboardDeveloper.

(** ** [unified-onboarding-enhanced.py] *)

Module UnifiedOnboarding.

(** [self]; [__init__] refuses an absent or empty pool id, so that
    [user_pool_id] is a string. *)
Record UnifiedBCCEOnboarder := {
  config : Config.t;
  account_id : string;
  user_pool_id : string;
  analytics_bucket : option string;
  kms_key_id : option string }.

Record UserInfo := {
  username : string;
  user_info_user_pool_id : string;
  user_sub : string;
  user_info_email : string;
  user_info_department : string;
  user_info_access_tier : string;
  budget_limit : Z;
  manager_email : string;
  auth_method : string }.

Record GroupInfo := {
  group_name : string;
  group_assigned : bool;
  group_department : string }.

(** The two dictionaries of [_setup_individual_budget]:
    [{'budget_name', 'budget_limit', 'currency', 'created': True}] or
    [{'budget_name': None, 'error': str(e), 'created': False}]. *)
Inductive IndividualBudget : Type :=
| budget_created (name : string) (budget_limit : Z) (currency : string)
| budget_not_created (error : exn).

(** [individual_budget['budget_name']] *)
Definition budget_name (b : IndividualBudget) : option string :=
  match b with
  | budget_created name _ _ => Some name
  | budget_not_created _ => None
  end.

(** [individual_budget['budget_limit']] *)
Definition individual_budget_limit (b : IndividualBudget) : M Z :=
  match b with
  | budget_created _ budget_limit _ => mret budget_limit
  | budget_not_created _ => raise (KeyError "budget_limit")
  end.

Record MetricsConfig := {
  namespace : string;
  dimension_Department : string;
  dimension_User : string;
  dimension_Environment : string;
  metrics : list string }.

Record GovernanceResources := {
  s3_user_prefix : string;
  resources_analytics_bucket : option string;
  individual_budget : IndividualBudget;
  resources_analytics_config : analytics_config;
  metrics_config : MetricsConfig;
  resources_kms_key_id : option string }.

Record Monitoring := {
  monitoring_user_email : string;
  monitoring_department : string;
  monitoring_access_tier : string;
  dashboard_name : string;
  alerts_enabled : bool;
  cost_alerts : bool;
  performance_monitoring : bool }.

Record UnifiedConfig := {
  profile : string;
  authentication_method : string;
  authentication_provider : string;
  authentication_user_pool_id : string;
  authentication_username : string;
  authentication_session_based : bool;
  authentication_region : string;
  governance_enabled : bool;
  governance_provider : string;
  governance_access_tier : string;
  governance_department : string;
  governance_budget_limit : Z;
  governance_analytics_bucket : option string;
  governance_kms_key_id : option string;
  governance_individual_budget : option string;
  integration_architecture : string;
  integration_solutions_library : string;
  integration_bcce : string;
  integration_version : string }.

(** [getting_started] is kept as the values interpolated into the guide,
    in the order of their appearance; the fixed text around them is not
    reproduced. *)
Record ConfigFiles := {
  unified_config : UnifiedConfig;
  env_vars : string;
  getting_started : list string }.

Record OnboardingResult := {
  status : string;
  integration_type : string;
  result_authentication_provider : string;
  result_governance_provider : string;
  developer_email : string;
  department : string;
  access_tier : string;
  idp_provider : string;
  user_info : UserInfo;
  group_info : GroupInfo;
  governance_resources : GovernanceResources;
  monitoring : Monitoring;
  config_files : ConfigFiles;
  onboarded_at : string }.

Definition __init__ (config : Config.t) : M UnifiedBCCEOnboarder :=
  account ← request sts_get_caller_identity;
  let user_pool_id :=
    Config.authentication_ config ≫= Config.user_pool_id in
  let analytics_bucket :=
    Config.governance_ config ≫= Config.analytics_bucket in
  let kms_key_id := Config.governance_ config ≫= Config.kms_key_id in
  raise_if (negb (truthy user_pool_id))
    (ValueError user_pool_id_not_found);;
  mret {| config := config;
          account_id := account;
          user_pool_id := default "" user_pool_id;
          analytics_bucket := analytics_bucket;
          kms_key_id := kms_key_id |}.

(** [self.config.get('organization', {}).get('name', d)] and the like. *)
Definition organization_name (self : UnifiedBCCEOnboarder) (d : string)
  : string :=
  default d (Config.organization_ (config self) ≫= Config.name).
Definition organization_region (self : UnifiedBCCEOnboarder) : string :=
  default "us-east-1" (Config.organization_ (config self) ≫= Config.region).
Definition organization_environment (self : UnifiedBCCEOnboarder)
  : string :=
  default "production"
    (Config.organization_ (config self) ≫= Config.environment).

Definition _validate_unified_request (self : UnifiedBCCEOnboarder)
    (email department access_tier : string) : M unit :=
  let departments := default ∅ (Config.departments (config self)) in
  raise_if (negb (bool_decide (is_Some (departments !! department))))
    (ValueError (invalid_department department));;
  department_config ←
    match departments !! department with
    | Some d => mret d
    | None => raise (KeyError department)
    end;
  let valid_tiers :=
    default ["sandbox"] (Config.access_tiers department_config) in
  raise_if (negb (bool_decide (access_tier ∈ valid_tiers)))
    (ValueError (invalid_access_tier access_tier));;
  try_except
    (let username := replace_at_dot email in
     request (cognito_admin_get_user (user_pool_id self) username);;
     raise (ValueError (user_already_exists email)))
    (fun e =>
       if is_class "UserNotFoundException" e then mret tt
       else (* except Exception as e: logger.warning(...) *) mret tt).

Definition _create_cognito_user_enhanced (self : UnifiedBCCEOnboarder)
    (email department access_tier manager_email : string) : M UserInfo :=
  let username := replace_at_dot email in
  let department_config :=
    default ∅ (Config.departments (config self)) !! department in
  let budget_limit :=
    default 100%Z (department_config ≫= Config.budget_limit) in
  let user_attributes :=
    [("email", email); ("email_verified", "true");
     ("custom:department", department);
     ("custom:access_tier", access_tier);
     ("custom:budget_limit", str_int budget_limit);
     ("custom:manager_email", manager_email)] in
  try_except
    (response ← request (cognito_admin_create_user (user_pool_id self)
       username user_attributes "WELCOME" "TempPass123!" false);
     mret {| username := username;
             user_info_user_pool_id := user_pool_id self;
             user_sub := response;
             user_info_email := email;
             user_info_department := department;
             user_info_access_tier := access_tier;
             budget_limit := budget_limit;
             manager_email := manager_email;
             auth_method := "cognito_enhanced" |})
    (fun e => raise e).

Definition _assign_department_group (self : UnifiedBCCEOnboarder)
    (email department : string) : M GroupInfo :=
  let username := replace_at_dot email in
  let group_name := department in
  try_except
    (request (cognito_admin_add_user_to_group (user_pool_id self)
                username group_name);;
     mret {| group_name := group_name;
             group_assigned := true;
             group_department := department |})
    (fun e => raise e).

(** The local [tier_limits] of [_setup_individual_budget]. *)
Definition tier_limits : gmap string Z :=
  {[ "sandbox" := 100; "integration" := 500; "production" := 1000 ]}%Z.

(** The local [notifications] of [_setup_individual_budget]. *)
Definition notifications (email : string)
  : list notification_with_subscribers :=
  [ {| Notification :=
         {| NotificationType := "ACTUAL";
            ComparisonOperator := "GREATER_THAN";
            Threshold := 80%Q;
            ThresholdType := "PERCENTAGE" |};
       Subscribers :=
         [ {| SubscriptionType := "EMAIL"; Address := email |} ] |};
    {| Notification :=
         {| NotificationType := "ACTUAL";
            ComparisonOperator := "GREATER_THAN";
            Threshold := 100%Q;
            ThresholdType := "PERCENTAGE" |};
       Subscribers :=
         [ {| SubscriptionType := "EMAIL"; Address := email |} ] |} ].

(** The locals [individual_limit], [budget_name] and [budget] of
    [_setup_individual_budget]. *)
Definition individual_limit_for (access_tier : string) : Z :=
  default 100%Z (tier_limits !! access_tier).

Definition budget_name_for (email : string) : string :=
  "BCCE-Individual-" +:+ replace_at_dot email.

Definition budget (email access_tier : string) : cost_budget :=
  {| BudgetName := budget_name_for email;
     BudgetLimit_Amount := str_int (individual_limit_for access_tier);
     BudgetLimit_Unit := "USD";
     TimeUnit := "MONTHLY";
     BudgetType := "COST";
     CostFilters_TagKey := ["BCCEUser"];
     CostFilters_TagValue := [email] |}.

Definition _setup_individual_budget (self : UnifiedBCCEOnboarder)
    (email department access_tier : string) : M IndividualBudget :=
  let individual_limit := individual_limit_for access_tier in
  let budget_name := budget_name_for email in
  try_except
    (let budget := budget email access_tier in
     let notifications := notifications email in
     request (budgets_create_budget (account_id self) budget
                notifications);;
     mret (budget_created budget_name individual_limit "USD"))
    (fun e => mret (budget_not_created e)).

Definition _setup_analytics_tracking (self : UnifiedBCCEOnboarder)
    (email department access_tier : string) : M analytics_config :=
  let analytics_config :=
    {| analytics_user_email := email;
       analytics_department := department;
       analytics_access_tier := access_tier;
       tracking_enabled := true;
       metrics_namespace := "BCCE/" +:+ organization_name self "Organization";
       analytics_bucket_name := analytics_bucket self;
       retention_days :=
         if String.eqb access_tier "production" then 365%Z else 90%Z |} in
  let config_key :=
    "configs/users/" +:+ replace_at_dot email +:+ "/analytics-config.json" in
  try_except
    (if truthy (analytics_bucket self) then
       request (s3_put_object (default "" (analytics_bucket self))
         config_key (analytics_json analytics_config) (kms_key_id self)
         (Some ("BCCEUser=" +:+ email +:+ "&Department=" +:+ department
                +:+ "&AccessTier=" +:+ access_tier)))
     else mret tt)
    (fun _ => mret tt);;
  mret analytics_config.

Definition _setup_custom_metrics (self : UnifiedBCCEOnboarder)
    (email department : string) : MetricsConfig :=
  {| namespace := "BCCE/" +:+ organization_name self "Organization";
     dimension_Department := department;
     dimension_User := email;
     dimension_Environment := organization_environment self;
     metrics := ["TokensUsed"; "RequestCount"; "ErrorCount";
                 "ResponseTime"; "CostEstimate"] |}.

Definition _setup_governance_resources (self : UnifiedBCCEOnboarder)
    (email department access_tier : string) : M GovernanceResources :=
  let user_prefix := "users/" +:+ replace_at_dot email in
  individual_budget ←
    _setup_individual_budget self email department access_tier;
  analytics_config ←
    _setup_analytics_tracking self email department access_tier;
  let metrics_config := _setup_custom_metrics self email department in
  mret {| s3_user_prefix := user_prefix;
          resources_analytics_bucket := analytics_bucket self;
          individual_budget := individual_budget;
          resources_analytics_config := analytics_config;
          metrics_config := metrics_config;
          resources_kms_key_id := kms_key_id self |}.

Definition _setup_enhanced_monitoring (self : UnifiedBCCEOnboarder)
    (email department access_tier : string) : Monitoring :=
  {| monitoring_user_email := email;
     monitoring_department := department;
     monitoring_access_tier := access_tier;
     dashboard_name := "BCCE-" +:+ replace_at_dot email;
     alerts_enabled := true;
     cost_alerts := bool_decide (access_tier ∈ ["integration"; "production"]);
     performance_monitoring := true |}.

Definition _get_model_list_for_tier (self : UnifiedBCCEOnboarder)
    (access_tier : string) : string :=
  let model_access : gmap string (list string) :=
    {[ "sandbox" := ["claude-3-haiku"];
       "integration" := ["claude-3-haiku"; "claude-3-5-sonnet"];
       "production" := ["claude-3-haiku"; "claude-3-5-sonnet";
                        "claude-3-opus"] ]} in
  let models := default ["claude-3-haiku"] (model_access !! access_tier) in
  join newline (map (fun model => "- " +:+ model) models).

Definition _generate_unified_config (self : UnifiedBCCEOnboarder)
    (email : string) (user_info : UserInfo)
    (governance_resources : GovernanceResources)
    (access_tier idp_provider : string) : M ConfigFiles :=
  let unified_config :=
    {| profile := "unified";
       authentication_method := "cognito_oidc";
       authentication_provider := idp_provider;
       authentication_user_pool_id := user_pool_id self;
       authentication_username := username user_info;
       authentication_session_based := true;
       authentication_region := organization_region self;
       governance_enabled := true;
       governance_provider := "bcce";
       governance_access_tier := access_tier;
       governance_department := user_info_department user_info;
       governance_budget_limit := budget_limit user_info;
       governance_analytics_bucket :=
         resources_analytics_bucket governance_resources;
       governance_kms_key_id := resources_kms_key_id governance_resources;
       governance_individual_budget :=
         budget_name (individual_budget governance_resources);
       integration_architecture := "layered";
       integration_solutions_library := "authentication";
       integration_bcce := "governance";
       integration_version := "1.0.0" |} in
  now ← utcnow;
  let env_vars := unlines
    [ "# BCCE + AWS Solutions Library Unified Configuration";
      "# Generated on " +:+ isoformat now;
      "";
      "# Authentication (AWS Solutions Library)";
      "export COGNITO_USER_POOL_ID=" +:+ quote
        +:+ user_pool_id self +:+ quote;
      "export COGNITO_USERNAME=" +:+ quote
        +:+ username user_info +:+ quote;
      "export AWS_REGION=" +:+ quote
        +:+ organization_region self +:+ quote;
      "";
      "# BCCE Governance";
      "export BCCE_ACCESS_TIER=" +:+ quote +:+ access_tier +:+ quote;
      "export BCCE_DEPARTMENT=" +:+ quote
        +:+ user_info_department user_info +:+ quote;
      "export BCCE_ANALYTICS_BUCKET=" +:+ quote
        +:+ str_optional (resources_analytics_bucket governance_resources)
        +:+ quote;
      "export BCCE_KMS_KEY_ID=" +:+ quote
        +:+ str_optional (resources_kms_key_id governance_resources)
        +:+ quote;
      "export BCCE_BUDGET_LIMIT=" +:+ quote
        +:+ str_int (budget_limit user_info) +:+ quote;
      "";
      "# Integration Configuration";
      "export BCCE_INTEGRATION_MODE=" +:+ quote +:+ "layered" +:+ quote;
      "export BCCE_AUTH_PROVIDER=" +:+ quote
        +:+ "aws_solutions_library" +:+ quote;
      "export BCCE_GOVERNANCE_PROVIDER=" +:+ quote +:+ "bcce" +:+ quote;
      "";
      "# Analytics and Monitoring";
      "export BCCE_ANALYTICS_ENABLED=" +:+ quote +:+ "true" +:+ quote;
      "export BCCE_INDIVIDUAL_BUDGET=" +:+ quote
        +:+ str_optional
              (budget_name (individual_budget governance_resources))
        +:+ quote ] in
  individual_limit ←
    individual_budget_limit (individual_budget governance_resources);
  let getting_started :=
    [ email;
      user_info_department user_info;
      access_tier;
      idp_provider;
      str_int (budget_limit user_info);
      str_int individual_limit;
      access_tier;
      _get_model_list_for_tier self access_tier;
      lower (organization_name self "company") ] in
  mret {| unified_config := unified_config;
          env_vars := env_vars;
          getting_started := getting_started |}.

(** Only writes to the log. *)
Definition _send_unified_welcome (self : UnifiedBCCEOnboarder)
    (email manager_email : string) (config_files : ConfigFiles)
    (access_tier use_case idp_provider : string) : M unit :=
  mret tt.

Definition _log_unified_onboarding_event (self : UnifiedBCCEOnboarder)
    (email department access_tier use_case idp_provider : string)
  : M unit :=
  now ← utcnow;
  user ← getenv "USER" "system";
  let event_data :=
    {| event_type := "unified_developer_onboarded";
       event_timestamp := isoformat now;
       event_developer_email := email;
       event_department := department;
       event_access_tier := access_tier;
       event_use_case := use_case;
       event_idp_provider := idp_provider;
       event_user_pool_id := user_pool_id self;
       event_analytics_bucket := analytics_bucket self;
       event_organization :=
         Config.organization_ (config self) ≫= Config.name;
       event_onboarded_by := user |} in
  if truthy (analytics_bucket self) then
    try_except
      (today ← utcnow;
       let event_key :=
         "events/onboarding/" +:+ strftime_Ymd today +:+ "/"
         +:+ replace_at_dot email +:+ ".json" in
       request (s3_put_object (default "" (analytics_bucket self))
         event_key (event_json event_data) (kms_key_id self) None))
      (fun _ => mret tt)
  else mret tt.

Definition onboard_developer_unified (self : UnifiedBCCEOnboarder)
    (email department access_tier manager_email use_case : string)
    (idp_provider : string) : M OnboardingResult :=
  try_except
    (_validate_unified_request self email department access_tier;;
     user_info ← _create_cognito_user_enhanced self email department
                   access_tier manager_email;
     group_info ← _assign_department_group self email department;
     governance_resources ←
       _setup_governance_resources self email department access_tier;
     let monitoring :=
       _setup_enhanced_monitoring self email department access_tier in
     config_files ← _generate_unified_config self email user_info
                      governance_resources access_tier idp_provider;
     _send_unified_welcome self email manager_email config_files
       access_tier use_case idp_provider;;
     _log_unified_onboarding_event self email department access_tier
       use_case idp_provider;;
     now ← utcnow;
     mret {| status := "success";
             integration_type := "layered_unified";
             result_authentication_provider := "aws_solutions_library";
             result_governance_provider := "bcce";
             developer_email := email;
             department := department;
             access_tier := access_tier;
             idp_provider := idp_provider;
             user_info := user_info;
             group_info := group_info;
             governance_resources := governance_resources;
             monitoring := monitoring;
             config_files := config_files;
             onboarded_at := isoformat now |})
    (fun e => raise e).

(** The parsed command line. *)
Record Namespace := {
  arg_email : string;
  arg_department : string;
  arg_access_tier : string;
  arg_manager_email : string;
  arg_use_case : string;
  arg_idp_provider : string;
  arg_config : string;
  arg_dry_run : bool }.

(** [main] from the parsed arguments on; the value is the exit status of
    the process: 2 when [argparse] rejects a choice, 1 after [sys.exit(1)]
    or an uncaught exception, 0 otherwise. *)
Definition main (args : Namespace) (w : world) (h : list call)
  : Z * list call :=
  if negb (bool_decide
       (arg_access_tier args ∈ ["sandbox"; "integration"; "production"]))
     || negb (bool_decide
       (arg_idp_provider args ∈ ["cognito"; "okta"; "azure_ad"; "auth0"]))
  then (2%Z, h)
  else
    match files w (arg_config args) with
    | None => (1%Z, h)
    | Some config =>
        match run (__init__ config) w h with
        | (Raise _, h1) => (1%Z, h1)
        | (Return onboarder, h1) =>
            if arg_dry_run args then
              match run (_validate_unified_request onboarder
                           (arg_email args) (arg_department args)
                           (arg_access_tier args)) w h1 with
              | (Return _, h2) => (0%Z, h2)
              | (Raise _, h2) => (1%Z, h2)
              end
            else
              match run (onboard_developer_unified onboarder
                           (arg_email args) (arg_department args)
                           (arg_access_tier args) (arg_manager_email args)
                           (arg_use_case args) (arg_idp_provider args))
                      w h1 with
              | (Return _, h2) => (0%Z, h2)
              | (Raise _, h2) => (1%Z, h2)
              end
        end
    end.

End UnifiedOnboarding.

(** ** Concrete worlds and requests used in the examples *)

Module Fixtures.

(** Every service accepts every call; nobody is registered yet. *)
Definition fresh_account (history : list call) (c : call)
  : outcome (response c) :=
  match c return outcome (response c) with
  | sts_get_caller_identity => returns "123456789012"
  | iam_get_user _ => raises "NoSuchEntityException"
  | iam_create_user UserName _ =>
      returns ("arn:aws:iam::123456789012:user/" +:+ UserName)
  | iam_create_access_key _ =>
      returns {| AccessKeyId := "AKIAEXAMPLE";
                 SecretAccessKey := "wJalrEXAMPLEKEY" |}
  | kms_create_key _ _ _ =>
      returns {| KeyId := "1234abcd";
                 Arn := "arn:aws:kms:us-east-1:123456789012:key/1234abcd" |}
  | cognito_admin_get_user _ _ => raises "UserNotFoundException"
  | cognito_admin_create_user _ Username _ _ _ _ => returns Username
  | _ => returns tt
  end.

(** As [fresh_account], but the user is already registered: looking the
    user up succeeds and creating the user again is refused. *)
Definition registered_user (history : list call) (c : call)
  : outcome (response c) :=
  match c return outcome (response c) with
  | iam_get_user _ => returns tt
  | iam_create_user _ _ => raises "EntityAlreadyExistsException"
  | cognito_admin_get_user _ _ => returns tt
  | cognito_admin_create_user _ _ _ _ _ _ =>
      raises "UsernameExistsException"
  | c' => fresh_account history c'
  end.

(** As [fresh_account], but a policy attachment without an ARN is refused,
    as botocore does when it validates the parameters. *)
Definition checked_parameters (history : list call) (c : call)
  : outcome (response c) :=
  match c return outcome (response c) with
  | iam_attach_user_policy _ None => raises "ParamValidationError"
  | iam_attach_group_policy _ None => raises "ParamValidationError"
  | c' => fresh_account history c'
  end.

(** As [fresh_account], but neither buckets nor budgets can be created. *)
Definition no_bucket_no_budget (history : list call) (c : call)
  : outcome (response c) :=
  match c return outcome (response c) with
  | s3_create_bucket _ _ => raises "AccessDenied"
  | budgets_create_budget _ _ _ => raises "AccessDeniedException"
  | c' => fresh_account history c'
  end.

Definition engineering : Config.department :=
  {| Config.budget_limit := Some 5000%Z;
     Config.access_tiers := Some ["sandbox"; "integration"] |}.

Definition acme : Config.t :=
  {| Config.organization_ :=
       Some {| Config.name := Some "Acme";
               Config.region := Some "us-east-1";
               Config.environment := Some "production" |};
     Config.authentication_ :=
       Some {| Config.user_pool_id := Some "us-east-1_EXAMPLE" |};
     Config.governance_ :=
       Some {| Config.analytics_bucket := Some "acme-analytics";
               Config.kms_key_id := Some "1234abcd" |};
     Config.departments := Some {[ "engineering" := engineering ]};
     Config.domain := Some "acme.com" |}.

Definition morning : datetime :=
  {| isoformat := "2025-01-15T09:00:00"; strftime_Ymd := "2025/01/15" |}.
Definition evening : datetime :=
  {| isoformat := "2025-01-15T21:30:00"; strftime_Ymd := "2025/01/15" |}.

Definition at_time (now : datetime)
    (service : forall (history : list call) (c : call), outcome (response c))
  : world :=
  {| service := service;
     clock := fun _ => now;
     environ := fun _ => None;
     files := fun path =>
       if String.eqb path "organization-config.yaml" then Some acme
       else None |}.

Definition single : OnboardDeveloper.BCCEDeveloperOnboarder :=
  {| OnboardDeveloper.config := acme;
     OnboardDeveloper.account_id := "123456789012" |}.

Definition unified : UnifiedOnboarding.UnifiedBCCEOnboarder :=
  {| UnifiedOnboarding.config := acme;
     UnifiedOnboarding.account_id := "123456789012";
     UnifiedOnboarding.user_pool_id := "us-east-1_EXAMPLE";
     UnifiedOnboarding.analytics_bucket := Some "acme-analytics";
     UnifiedOnboarding.kms_key_id := Some "1234abcd" |}.

(** What the identity and resource stages of [onboard-developer.py] return
for [dev@acme.com] on [fresh_account]. *)
Definition user_info : OnboardDeveloper.UserInfo :=
  {| OnboardDeveloper.username := "bcce-dev-acme-com";
     OnboardDeveloper.user_arn :=
       "arn:aws:iam::123456789012:user/bcce-dev-acme-com";
     OnboardDeveloper.access_key_id := "AKIAEXAMPLE";
     OnboardDeveloper.secret_access_key := "wJalrEXAMPLEKEY";
     OnboardDeveloper.policy_arn :=
       Some "arn:aws:iam::123456789012:policy/BCCE-Sandbox-Developer-Policy";
     OnboardDeveloper.group_name := "BCCE-Engineering-Sandbox" |}.

Definition resources : OnboardDeveloper.Resources :=
  {| OnboardDeveloper.s3_bucket := Some "bcce-dev-acme-com-12345678";
     OnboardDeveloper.kms_key_id := "1234abcd";
     OnboardDeveloper.kms_key_arn :=
       "arn:aws:kms:us-east-1:123456789012:key/1234abcd";
     OnboardDeveloper.log_group_name := "/bcce/developer/dev-acme-com" |}.

Definition dry_run : OnboardDeveloper.Namespace :=
  {| OnboardDeveloper.arg_email := "dev@acme.com";
     OnboardDeveloper.arg_department := "engineering";
     OnboardDeveloper.arg_access_tier := "sandbox";
     OnboardDeveloper.arg_manager_email := "cto@acme.com";
     OnboardDeveloper.arg_use_case := "evaluation";
     OnboardDeveloper.arg_config := "organization-config.yaml";
     OnboardDeveloper.arg_dry_run := true |}.

(** As [fresh_account], but the groups do not exist yet: adding a user to a
group is refused until that group has been created. *)
Definition group_created (GroupName : string) (c : call) : bool :=
  match c with
  | iam_create_group created => String.eqb created GroupName
  | _ => false
  end.

Definition missing_groups (history : list call) (c : call)
  : outcome (response c) :=
  match c as c' return outcome (response c') with
  | iam_add_user_to_group GroupName _ =>
      if existsb (group_created GroupName) history then returns tt
      else raises "NoSuchEntityException"
  | c' => fresh_account history c'
  end.

(** As [fresh_account], but no key can be created. *)
Definition no_key (history : list call) (c : call) : outcome (response c) :=
  match c as c' return outcome (response c') with
  | kms_create_key _ _ _ => raises "LimitExceededException"
  | c' => fresh_account history c'
  end.

(** As [fresh_account], but the bucket, once created, cannot be versioned. *)
Definition no_versioning (history : list call) (c : call)
  : outcome (response c) :=
  match c as c' return outcome (response c') with
  | s3_put_bucket_versioning _ _ => raises "AccessDenied"
  | c' => fresh_account history c'
  end.

(** As [fresh_account], but the pool has no group for the departments. *)
Definition no_department_group (history : list call) (c : call)
  : outcome (response c) :=
  match c as c' return outcome (response c') with
  | cognito_admin_add_user_to_group _ _ _ =>
      raises "ResourceNotFoundException"
  | c' => fresh_account history c'
  end.

(** As [fresh_account], but the lookups of users are denied. *)
Definition lookups_denied (history : list call) (c : call)
  : outcome (response c) :=
  match c as c' return outcome (response c') with
  | iam_get_user _ => raises "AccessDeniedException"
  | cognito_admin_get_user _ _ => raises "AccessDeniedException"
  | c' => fresh_account history c'
  end.

(** As [fresh_account], but nobody may change the groups. *)
Definition groups_denied (history : list call) (c : call)
  : outcome (response c) :=
  match c as c' return outcome (response c') with
  | iam_add_user_to_group _ _ => raises "AccessDeniedException"
  | c' => fresh_account history c'
  end.

(** A configuration without user pool. *)
Definition no_pool : Config.t :=
  {| Config.organization_ := None;
     Config.authentication_ := Some {| Config.user_pool_id := Some "" |};
     Config.governance_ := None;
     Config.departments := Some {[ "engineering" := engineering ]};
     Config.domain := None |}.

End Fixtures.

(** * Properties *)

(** ** Running a computation step by step *)

Section Run.
Context {A B : Type}.
Implicit Types (w : world) (h : list call).

Lemma run_ret (a : A) w h : run (mret a) w h = (Return a, h).
Proof. reflexivity. Qed.

Lemma run_raise (e : exn) w h : run (raise e : M A) w h = (Raise e, h).
Proof. reflexivity. Qed.

Lemma run_bind (m : M A) (k : A -> M B) w h :
  run (m ≫= k) w h =
  match run m w h with
  | (Return a, h') => run (k a) w h'
  | (Raise e, h') => (Raise e, h')
  end.
Proof. reflexivity. Qed.

Lemma run_bind_Return (m : M A) (k : A -> M B) w h a h' :
  run m w h = (Return a, h') -> run (m ≫= k) w h = run (k a) w h'.
Proof. intros E. rewrite run_bind, E. reflexivity. Qed.

Lemma run_bind_Raise (m : M A) (k : A -> M B) w h e h' :
  run m w h = (Raise e, h') -> run (m ≫= k) w h = (Raise e, h').
Proof. intros E. rewrite run_bind, E. reflexivity. Qed.

Lemma run_try_except (body : M A) (handler : exn -> M A) w h :
  run (try_except body handler) w h =
  match run body w h with
  | (Return a, h') => (Return a, h')
  | (Raise e, h') => run (handler e) w h'
  end.
Proof. reflexivity. Qed.

(** [except Exception as e: ...; raise] changes nothing. *)
Lemma run_try_reraise (body : M A) w h :
  run (try_except body (fun e => raise e)) w h = run body w h.
Proof.
  rewrite run_try_except. destruct (run body w h) as [[a|e] h']; reflexivity.
Qed.
End Run.

Lemma run_request (c : call) w h :
  run (request c) w h =
  (match service w h c with
   | returns r => Return r
   | raises name => Raise (ClientError name)
   end, h ++ [c]).
Proof. reflexivity. Qed.

Lemma run_raise_if (cond : bool) (e : exn) w h :
  run (raise_if cond e) w h = (if cond then Raise e else Return tt, h).
Proof. destruct cond; reflexivity. Qed.

Lemma str_int_100 : str_int 100 = "100".
Proof. vm_compute. reflexivity. Qed.

(** ** The budget stage *)

(** The budget stage of [onboard-developer.py] sends one request and
    returns whatever the service answers. *)
Lemma single_budget_stage self email department access_tier w h :
  let req :=
    budgets_create_budget (OnboardDeveloper.account_id self)
      (OnboardDeveloper.budget email access_tier)
      (OnboardDeveloper.notifications self email department) in
  run (OnboardDeveloper._setup_budget_controls self email department
         access_tier) w h =
  (Return
     match service w h req with
     | returns _ =>
         OnboardDeveloper.budget_created
           (OnboardDeveloper.budget_name_for email)
           (OnboardDeveloper.budget_limit_for access_tier) "USD" true
     | raises name => OnboardDeveloper.budget_not_created (ClientError name)
     end,
   h ++ [req]).
Proof.
  intros req. unfold OnboardDeveloper._setup_budget_controls.
  rewrite run_try_except, run_bind, run_request. fold req.
  destruct (service w h req); reflexivity.
Qed.

(** The same for [unified-onboarding-enhanced.py]. *)
Lemma unified_budget_stage self email department access_tier w h :
  let req :=
    budgets_create_budget (UnifiedOnboarding.account_id self)
      (UnifiedOnboarding.budget email access_tier)
      (UnifiedOnboarding.notifications email) in
  run (UnifiedOnboarding._setup_individual_budget self email department
         access_tier) w h =
  (Return
     match service w h req with
     | returns _ =>
         UnifiedOnboarding.budget_created
           (UnifiedOnboarding.budget_name_for email)
           (UnifiedOnboarding.individual_limit_for access_tier) "USD"
     | raises name => UnifiedOnboarding.budget_not_created (ClientError name)
     end,
   h ++ [req]).
Proof.
  intros req. unfold UnifiedOnboarding._setup_individual_budget.
  rewrite run_try_except, run_bind, run_request. fold req.
  destruct (service w h req); reflexivity.
Qed.

Lemma not_a_listed_tier (access_tier : string) :
  access_tier ∉ ["sandbox"; "integration"; "production"] ->
  access_tier ≠ "sandbox" ∧ access_tier ≠ "integration"
  ∧ access_tier ≠ "production".
Proof. rewrite !not_elem_of_cons. tauto. Qed.

Lemma single_default_limit (access_tier : string) :
  access_tier ∉ ["sandbox"; "integration"; "production"] ->
  OnboardDeveloper.budget_limit_for access_tier = 100%Z.
Proof.
  intros (? & ? & ?)%not_a_listed_tier.
  unfold OnboardDeveloper.budget_limit_for, OnboardDeveloper.budget_limits.
  by simplify_map_eq.
Qed.

Lemma unified_default_limit (access_tier : string) :
  access_tier ∉ ["sandbox"; "integration"; "production"] ->
  UnifiedOnboarding.individual_limit_for access_tier = 100%Z.
Proof.
  intros (? & ? & ?)%not_a_listed_tier.
  unfold UnifiedOnboarding.individual_limit_for, UnifiedOnboarding.tier_limits.
  by simplify_map_eq.
Qed.

(** C5. In both scripts and for every department and tier, the budget stage
    sends exactly one budget request, and that request carries exactly two
    notification rules: actual spend greater than 80.0 percent and actual
    spend greater than 100.0 percent. *)
Theorem C5_two_rules_at_80_and_100
    (email department access_tier : string) (w : world) (h : list call) :
  let rule threshold :=
    {| NotificationType := "ACTUAL";
       ComparisonOperator := "GREATER_THAN";
       Threshold := threshold;
       ThresholdType := "PERCENTAGE" |} in
  (forall self, exists account budget rules,
      snd (run (OnboardDeveloper._setup_budget_controls self email department
                  access_tier) w h)
      = h ++ [budgets_create_budget account budget rules]
      ∧ map Notification rules = [rule 80%Q; rule 100%Q])
  ∧
  (forall self, exists account budget rules,
      snd (run (UnifiedOnboarding._setup_individual_budget self email
                  department access_tier) w h)
      = h ++ [budgets_create_budget account budget rules]
      ∧ map Notification rules = [rule 80%Q; rule 100%Q]).
Proof.
  intros rule. split; intros self.
  - rewrite single_budget_stage. simpl. eauto.
  - rewrite unified_budget_stage. simpl. eauto.
Qed.

(** C10. For a tier outside the table (sandbox, integration, production)
    the budget stage of either script does not fail: it asks for a monthly
    budget of 100 USD and returns; when the service accepts the request the
    limit it reports is 100. *)
Theorem C10_unknown_tier_defaults_to_100
    (email department access_tier : string) (w : world) (h : list call) :
  access_tier ∉ ["sandbox"; "integration"; "production"] ->
  (forall self,
     let req :=
       budgets_create_budget (OnboardDeveloper.account_id self)
         {| BudgetName := "BCCE-" +:+ replace_at_dot email;
            BudgetLimit_Amount := "100";
            BudgetLimit_Unit := "USD";
            TimeUnit := "MONTHLY";
            BudgetType := "COST";
            CostFilters_TagKey := ["Owner"];
            CostFilters_TagValue := [email] |}
         (OnboardDeveloper.notifications self email department) in
     run (OnboardDeveloper._setup_budget_controls self email department
            access_tier) w h =
     (Return
        match service w h req with
        | returns _ =>
            OnboardDeveloper.budget_created ("BCCE-" +:+ replace_at_dot email)
              100 "USD" true
        | raises name => OnboardDeveloper.budget_not_created (ClientError name)
        end,
      h ++ [req]))
  ∧
  (forall self,
     let req :=
       budgets_create_budget (UnifiedOnboarding.account_id self)
         {| BudgetName := "BCCE-Individual-" +:+ replace_at_dot email;
            BudgetLimit_Amount := "100";
            BudgetLimit_Unit := "USD";
            TimeUnit := "MONTHLY";
            BudgetType := "COST";
            CostFilters_TagKey := ["BCCEUser"];
            CostFilters_TagValue := [email] |}
         (UnifiedOnboarding.notifications email) in
     run (UnifiedOnboarding._setup_individual_budget self email department
            access_tier) w h =
     (Return
        match service w h req with
        | returns _ =>
            UnifiedOnboarding.budget_created
              ("BCCE-Individual-" +:+ replace_at_dot email) 100 "USD"
        | raises name => UnifiedOnboarding.budget_not_created (ClientError name)
        end,
      h ++ [req])).
Proof.
  intros Hunknown. split; intros self req.
  - rewrite single_budget_stage.
    unfold OnboardDeveloper.budget, OnboardDeveloper.budget_name_for.
    rewrite (single_default_limit _ Hunknown), str_int_100. reflexivity.
  - rewrite unified_budget_stage.
    unfold UnifiedOnboarding.budget, UnifiedOnboarding.budget_name_for.
    rewrite (unified_default_limit _ Hunknown), str_int_100. reflexivity.
Qed.

(** At the tier [admin], with a service that refuses budgets: no exception,
    a request for 100 USD. *)
Lemma C10_witness :
  run (OnboardDeveloper._setup_budget_controls Fixtures.single
         "dev@acme.com" "engineering" "admin")
      (Fixtures.at_time Fixtures.morning Fixtures.no_bucket_no_budget) []
  = (Return (OnboardDeveloper.budget_not_created
               (ClientError "AccessDeniedException")),
     [budgets_create_budget "123456789012"
        {| BudgetName := "BCCE-dev-acme-com";
           BudgetLimit_Amount := "100";
           BudgetLimit_Unit := "USD";
           TimeUnit := "MONTHLY";
           BudgetType := "COST";
           CostFilters_TagKey := ["Owner"];
           CostFilters_TagValue := ["dev@acme.com"] |}
        (OnboardDeveloper.notifications Fixtures.single
           "dev@acme.com" "engineering")]).
Proof.
  refine (proj1 (C10_unknown_tier_defaults_to_100 "dev@acme.com"
            "engineering" "admin" _ [] _) Fixtures.single).
  compute_done.
Defined.

(** C6, as stated, fails on [unified-onboarding-enhanced.py]: for
    [dev@acme.com] in [engineering] the rule at 100 percent has one
    subscriber, the user, and no manager. *)
Lemma C6_unified_100_percent_has_one_subscriber :
  snd (run (UnifiedOnboarding._setup_individual_budget Fixtures.unified
              "dev@acme.com" "engineering" "sandbox")
         (Fixtures.at_time Fixtures.morning Fixtures.fresh_account) [])
  = [budgets_create_budget "123456789012"
       (UnifiedOnboarding.budget "dev@acme.com" "sandbox")
       [ {| Notification :=
              {| NotificationType := "ACTUAL";
                 ComparisonOperator := "GREATER_THAN";
                 Threshold := 80%Q;
                 ThresholdType := "PERCENTAGE" |};
            Subscribers :=
              [ {| SubscriptionType := "EMAIL";
                   Address := "dev@acme.com" |} ] |};
         {| Notification :=
              {| NotificationType := "ACTUAL";
                 ComparisonOperator := "GREATER_THAN";
                 Threshold := 100%Q;
                 ThresholdType := "PERCENTAGE" |};
            Subscribers :=
              [ {| SubscriptionType := "EMAIL";
                   Address := "dev@acme.com" |} ] |} ]]
  ∧ length (Subscribers
              {| Notification :=
                   {| NotificationType := "ACTUAL";
                      ComparisonOperator := "GREATER_THAN";
                      Threshold := 100%Q;
                      ThresholdType := "PERCENTAGE" |};
                 Subscribers :=
                   [ {| SubscriptionType := "EMAIL";
                        Address := "dev@acme.com" |} ] |}) ≠ 2.
Proof. split; [vm_compute; reflexivity | discriminate]. Qed.

(** C6, amended. In [onboard-developer.py] the rule at 80 percent notifies
    the user, and the rule at 100 percent notifies the user and the address
    [<department>-manager@<domain>], the domain being that of the
    configuration or [company.com]; the [manager_email] of the request is
    not used.  In [unified-onboarding-enhanced.py] both rules notify the
    user only. *)
Theorem C6_subscribers_per_script
    (email department access_tier : string) (w : world) (h : list call) :
  let by_email address :=
    {| SubscriptionType := "EMAIL"; Address := address |} in
  let summary rule := (Threshold (Notification rule), Subscribers rule) in
  (forall self, exists account budget rules,
      snd (run (OnboardDeveloper._setup_budget_controls self email department
                  access_tier) w h)
      = h ++ [budgets_create_budget account budget rules]
      ∧ map summary rules =
        [ (80%Q, [by_email email]);
          (100%Q,
           [by_email email;
            by_email (department +:+ "-manager@"
              +:+ default "company.com"
                    (Config.domain (OnboardDeveloper.config self)))]) ])
  ∧
  (forall self, exists account budget rules,
      snd (run (UnifiedOnboarding._setup_individual_budget self email
                  department access_tier) w h)
      = h ++ [budgets_create_budget account budget rules]
      ∧ map summary rules =
        [ (80%Q, [by_email email]); (100%Q, [by_email email]) ]).
Proof.
  intros by_email summary. split; intros self.
  - rewrite single_budget_stage. simpl. eauto.
  - rewrite unified_budget_stage. simpl. eauto.
Qed.

(** ** Names derived from the email *)

Lemma get_replace (old new : ascii) (s : string) (i : nat) :
  String.get i (replace old (String new EmptyString) s)
  = option_map (fun c => if Ascii.eqb c old then new else c) (String.get i s).
Proof.
  revert i. induction s as [|c s IH]; intros i; simpl; [reflexivity|].
  destruct (Ascii.eqb c old) eqn:E; simpl; destruct i; simpl;
    rewrite ?E; auto.
Qed.

(** Every [@] and every [.] becomes [-]; every other character stays where
    it is. *)
Lemma get_replace_at_dot (email : string) (i : nat) :
  String.get i (replace_at_dot email)
  = option_map
      (fun c => if Ascii.eqb c "@" || Ascii.eqb c "." then "-"%char else c)
      (String.get i email).
Proof.
  unfold replace_at_dot.
  change "-" with (String "-"%char EmptyString).
  rewrite !get_replace. destruct (String.get i email) as [c|]; simpl; auto.
  destruct (Ascii.eqb c "@") eqn:E; simpl; reflexivity.
Qed.

Ltac unfold_run :=
  unfold run, mbind, M_bind, mret, M_ret, request, raise, raise_if,
    try_except, except_class, utcnow, getenv in *.

(** Split on the answer of the next service call in [H], then on the next
    test. *)
Ltac case_service_in H :=
  match type of H with
  | context [service ?w ?h ?c] =>
      destruct (service w h c) eqn:?; cbv beta match in H
  end.

Ltac case_if_in H :=
  match type of H with
  | context [if ?b then _ else _] => destruct b eqn:?; cbv beta match in H
  end.

Ltac all_cases_in H :=
  repeat (first [case_service_in H | case_if_in H]; try discriminate H).

Lemma single_username self email department access_tier w h info h' :
  run (OnboardDeveloper._create_iam_user self email department access_tier)
    w h = (Return info, h') ->
  OnboardDeveloper.username info = "bcce-" +:+ replace_at_dot email.
Proof.
  unfold OnboardDeveloper._create_iam_user,
    OnboardDeveloper._create_developer_group.
  unfold_run. intros H. all_cases_in H. all: by inversion H.
Qed.

Lemma unified_username self email department access_tier manager w h info h' :
  run (UnifiedOnboarding._create_cognito_user_enhanced self email department
         access_tier manager) w h = (Return info, h') ->
  UnifiedOnboarding.username info = replace_at_dot email.
Proof.
  unfold UnifiedOnboarding._create_cognito_user_enhanced.
  unfold_run. intros H. all_cases_in H. by inversion H.
Qed.
(** C8, as stated, fails on [onboard-developer.py]: the user created for
    [dev@acme.com] is called [bcce-dev-acme-com], not [dev-acme-com]. *)
Lemma C8_single_username_has_a_prefix :
  result_map OnboardDeveloper.username
    (fst (run (OnboardDeveloper._create_iam_user Fixtures.single
                 "dev@acme.com" "engineering" "sandbox")
            (Fixtures.at_time Fixtures.morning Fixtures.fresh_account) []))
  = Return "bcce-dev-acme-com"
  ∧ result_map OnboardDeveloper.username
      (fst (run (OnboardDeveloper._create_iam_user Fixtures.single
                   "dev@acme.com" "engineering" "sandbox")
              (Fixtures.at_time Fixtures.morning Fixtures.fresh_account) []))
    ≠ Return "dev-acme-com".
Proof. split; [vm_compute; reflexivity | vm_compute; discriminate]. Qed.

(** C8, amended. The username is a function of the email alone.  In
    [unified-onboarding-enhanced.py] it is the email with every [@] and [.]
    replaced by [-], so that [dev@acme.com] gives [dev-acme-com]; in
    [onboard-developer.py] it is that same name behind the prefix [bcce-],
    so that [dev@acme.com] gives [bcce-dev-acme-com]. *)
Theorem C8_username_from_email :
  (forall self email department access_tier manager_email w h info h',
      run (UnifiedOnboarding._create_cognito_user_enhanced self email
             department access_tier manager_email) w h = (Return info, h') ->
      UnifiedOnboarding.username info = replace_at_dot email)
  ∧ (forall self email department access_tier w h info h',
      run (OnboardDeveloper._create_iam_user self email department
             access_tier) w h = (Return info, h') ->
      OnboardDeveloper.username info = "bcce-" +:+ replace_at_dot email)
  ∧ (forall email i,
      String.get i (replace_at_dot email)
      = option_map
          (fun c => if Ascii.eqb c "@" || Ascii.eqb c "." then "-"%char else c)
          (String.get i email))
  ∧ replace_at_dot "dev@acme.com" = "dev-acme-com"
  ∧ "bcce-" +:+ replace_at_dot "dev@acme.com" = "bcce-dev-acme-com".
Proof.
  split; [|split; [|split; [|split]]].
  - intros. eapply unified_username; eassumption.
  - intros. eapply single_username; eassumption.
  - apply get_replace_at_dot.
  - reflexivity.
  - reflexivity.
Qed.

(** Both scripts, run for [dev@acme.com] on a fresh account. *)
Lemma C8_witness :
  UnifiedOnboarding.username
    {| UnifiedOnboarding.username := "dev-acme-com";
       UnifiedOnboarding.user_info_user_pool_id := "us-east-1_EXAMPLE";
       UnifiedOnboarding.user_sub := "dev-acme-com";
       UnifiedOnboarding.user_info_email := "dev@acme.com";
       UnifiedOnboarding.user_info_department := "engineering";
       UnifiedOnboarding.user_info_access_tier := "sandbox";
       UnifiedOnboarding.budget_limit := 5000;
       UnifiedOnboarding.manager_email := "cto@acme.com";
       UnifiedOnboarding.auth_method := "cognito_enhanced" |}
  = replace_at_dot "dev@acme.com".
Proof.
  refine (proj1 C8_username_from_email Fixtures.unified "dev@acme.com"
            "engineering" "sandbox" "cto@acme.com"
            (Fixtures.at_time Fixtures.morning Fixtures.fresh_account) []
            _ _ _).
  vm_compute. reflexivity.
Defined.

(** ** Validation *)

(** What [_validate_onboarding_request] does, case by case. *)
Lemma single_validation self email department access_tier w h :
  let departments :=
    default ∅ (Config.departments (OnboardDeveloper.config self)) in
  let lookup := iam_get_user ("bcce-" +:+ replace_at_dot email) in
  run (OnboardDeveloper._validate_onboarding_request self email department
         access_tier) w h =
  if negb (bool_decide (is_Some (departments !! department))) then
    (Raise (ValueError (invalid_department department)), h)
  else if negb (bool_decide
                  (access_tier ∈ ["sandbox"; "integration"; "production"]))
  then (Raise (ValueError (invalid_access_tier access_tier)), h)
  else
    (match service w h lookup with
     | returns _ => Raise (ValueError (user_already_exists email))
     | raises name =>
         if String.eqb name "NoSuchEntityException" then Return tt
         else Raise (ClientError name)
     end, h ++ [lookup]).
Proof.
  intros departments lookup.
  unfold OnboardDeveloper._validate_onboarding_request.
  fold departments lookup.
  rewrite run_bind, run_raise_if.
  destruct (negb (bool_decide (is_Some (departments !! department))));
    [reflexivity|].
  rewrite run_bind, run_raise_if.
  destruct (negb (bool_decide (access_tier ∈ _))); [reflexivity|].
  rewrite run_try_except, run_bind, run_request.
  destruct (service w h lookup) as [[]|name]; [reflexivity|].
  unfold except_class, is_class.
  destruct (String.eqb name "NoSuchEntityException"); reflexivity.
Qed.

(** What [_validate_unified_request] does, case by case: whatever the
    lookup of the user answers, the validation returns. *)
Lemma unified_validation self email department access_tier w h :
  let departments :=
    default ∅ (Config.departments (UnifiedOnboarding.config self)) in
  let lookup :=
    cognito_admin_get_user (UnifiedOnboarding.user_pool_id self)
      (replace_at_dot email) in
  run (UnifiedOnboarding._validate_unified_request self email department
         access_tier) w h =
  match departments !! department with
  | None => (Raise (ValueError (invalid_department department)), h)
  | Some d =>
      if bool_decide
           (access_tier ∈ default ["sandbox"] (Config.access_tiers d))
      then (Return tt, h ++ [lookup])
      else (Raise (ValueError (invalid_access_tier access_tier)), h)
  end.
Proof.
  intros departments lookup.
  unfold UnifiedOnboarding._validate_unified_request.
  fold departments lookup.
  rewrite run_bind, run_raise_if.
  destruct (departments !! department) as [d|] eqn:E; [|reflexivity].
  rewrite bool_decide_eq_true_2 by eauto. cbn [negb].
  rewrite run_bind, run_ret, run_bind, run_raise_if.
  destruct (bool_decide (access_tier ∈ _)); [|reflexivity]. cbn [negb].
  rewrite run_try_except, run_bind, run_request.
  destruct (service w h lookup) as [[]|name]; cbn.
  - reflexivity.
  - match goal with |- context [if ?b then _ else _] => destruct b end;
      reflexivity.
Qed.

(** When the validation raises, so does the onboarding, and nothing more
    has been called. *)
Lemma single_onboarding_stops self email department access_tier manager
    use_case w h e h' :
  run (OnboardDeveloper._validate_onboarding_request self email department
         access_tier) w h = (Raise e, h') ->
  run (OnboardDeveloper.onboard_developer self email department access_tier
         manager use_case) w h = (Raise e, h').
Proof.
  intros E. unfold OnboardDeveloper.onboard_developer.
  rewrite run_try_reraise. by apply run_bind_Raise.
Qed.

Lemma unified_onboarding_stops self email department access_tier manager
    use_case idp w h e h' :
  run (UnifiedOnboarding._validate_unified_request self email department
         access_tier) w h = (Raise e, h') ->
  run (UnifiedOnboarding.onboard_developer_unified self email department
         access_tier manager use_case idp) w h = (Raise e, h').
Proof.
  intros E. unfold UnifiedOnboarding.onboard_developer_unified.
  rewrite run_try_reraise. by apply run_bind_Raise.
Qed.

(** The first call of the identity stage creates the user. *)
Lemma single_identity_starts self email department access_tier w h :
  exists rest,
    snd (run (OnboardDeveloper._create_iam_user self email department
                access_tier) w h)
    = h ++ iam_create_user ("bcce-" +:+ replace_at_dot email)
             [("Email", email); ("Department", department);
              ("AccessTier", access_tier); ("CreatedBy", "BCCE-Onboarding");
              ("Purpose", "BCCE-Developer-Access")] :: rest.
Proof.
  unfold OnboardDeveloper._create_iam_user,
    OnboardDeveloper._create_developer_group.
  unfold_run.
  repeat match goal with
         | |- context [service ?w ?h ?c] => destruct (service w h c)
         | |- context [if ?b then _ else _] => destruct b
         end;
    cbn [snd]; rewrite <- ?app_assoc; cbn [app]; eauto.
Qed.

(** ** Which calls a computation can make *)

Section CallsOnly.
Context {A B : Type} (P : call -> Prop).

Lemma calls_only_ret (a : A) : calls_only P (mret a).
Proof. intros w h. exists []. by rewrite app_nil_r. Qed.

Lemma calls_only_raise (e : exn) : calls_only P (raise e : M A).
Proof. intros w h. exists []. by rewrite app_nil_r. Qed.

Lemma calls_only_bind (m : M A) (k : A -> M B) :
  calls_only P m -> (forall a, calls_only P (k a)) -> calls_only P (m ≫= k).
Proof.
  intros Hm Hk w h. rewrite run_bind.
  destruct (Hm w h) as (more & E & HP).
  destruct (run m w h) as [[a|e] h1]; cbn [snd] in E; subst h1.
  - destruct (Hk a w (h ++ more)) as (more' & -> & HP').
    exists (more ++ more'). rewrite app_assoc. split; [done|].
    by apply Forall_app.
  - by exists more.
Qed.

Lemma calls_only_try_except (body : M A) (handler : exn -> M A) :
  calls_only P body -> (forall e, calls_only P (handler e)) ->
  calls_only P (try_except body handler).
Proof.
  intros Hm Hk w h. rewrite run_try_except.
  destruct (Hm w h) as (more & E & HP).
  destruct (run body w h) as [[a|e] h1]; cbn [snd] in E; subst h1.
  - by exists more.
  - destruct (Hk e w (h ++ more)) as (more' & -> & HP').
    exists (more ++ more'). rewrite app_assoc. split; [done|].
    by apply Forall_app.
Qed.

Lemma calls_only_except_class (name : string) (handler : M A) (e : exn) :
  calls_only P handler -> calls_only P (except_class name handler e).
Proof.
  intros H. unfold except_class. destruct (is_class name e); [done|].
  apply calls_only_raise.
Qed.

Lemma calls_only_if (b : bool) (m1 m2 : M A) :
  calls_only P m1 -> calls_only P m2 -> calls_only P (if b then m1 else m2).
Proof. by destruct b. Qed.
End CallsOnly.

Lemma calls_only_request (P : call -> Prop) (c : call) :
  P c -> calls_only P (request c).
Proof. intros H w h. exists [c]. split; [done|]. by constructor. Qed.

Lemma calls_only_utcnow (P : call -> Prop) :
  P datetime_utcnow -> calls_only P utcnow.
Proof. intros H w h. exists [datetime_utcnow]. split; [done|]. by constructor. Qed.

Lemma calls_only_getenv (P : call -> Prop) (name default_ : string) :
  calls_only P (getenv name default_).
Proof. intros w h. exists []. by rewrite app_nil_r. Qed.

Lemma calls_only_raise_if (P : call -> Prop) (cond : bool) (e : exn) :
  calls_only P (raise_if cond e).
Proof.
  unfold raise_if. apply calls_only_if;
    [apply calls_only_raise | apply calls_only_ret].
Qed.

(** Goes through a computation statement by statement; what is left are the
    calls whose membership in [P] is not immediate. *)
Ltac calls_only :=
  repeat first
    [ apply calls_only_bind; [|intros ?]
    | apply calls_only_try_except; [|intros ?]
    | apply calls_only_except_class
    | apply calls_only_request
    | apply calls_only_utcnow
    | apply calls_only_getenv
    | apply calls_only_raise_if
    | apply calls_only_raise
    | apply calls_only_ret
    | apply calls_only_if
    | match goal with
      | |- calls_only _ (match ?x with _ => _ end) => destruct x
      end ];
  try done.

Lemma bind_starts {A B} (m : M A) (k : A -> M B) w h (c : call) :
  (exists rest, snd (run m w h) = h ++ c :: rest) ->
  (forall a, calls_only (fun _ => True) (k a)) ->
  exists rest, snd (run (m ≫= k) w h) = h ++ c :: rest.
Proof.
  intros [rest E] Hk. rewrite run_bind.
  destruct (run m w h) as [[a|e] h1]; cbn [snd] in E; subst h1; [|eauto].
  destruct (Hk a w (h ++ c :: rest)) as (more & -> & _).
  exists (rest ++ more). by rewrite <- app_assoc.
Qed.

Lemma unified_identity_starts self email department access_tier manager w h :
  exists attributes rest,
    snd (run (UnifiedOnboarding._create_cognito_user_enhanced self email
                department access_tier manager) w h)
    = h ++ cognito_admin_create_user (UnifiedOnboarding.user_pool_id self)
             (replace_at_dot email) attributes "WELCOME" "TempPass123!" false
           :: rest.
Proof.
  unfold UnifiedOnboarding._create_cognito_user_enhanced. unfold_run.
  match goal with
  | |- context [service ?w ?h ?c] => destruct (service w h c)
  end; cbn [snd]; eauto.
Qed.

(** After a validation that returned, the onboarding goes on with the
    identity stage. *)
Lemma single_onboarding_continues self email department access_tier manager
    use_case w h h1 :
  run (OnboardDeveloper._validate_onboarding_request self email department
         access_tier) w h = (Return tt, h1) ->
  exists tags rest,
    snd (run (OnboardDeveloper.onboard_developer self email department
                access_tier manager use_case) w h)
    = h1 ++ iam_create_user ("bcce-" +:+ replace_at_dot email) tags :: rest.
Proof.
  intros E. unfold OnboardDeveloper.onboard_developer.
  rewrite run_try_reraise, (run_bind_Return _ _ _ _ _ _ E).
  eexists. apply bind_starts; [apply single_identity_starts|].
  intros info.
  unfold OnboardDeveloper._provision_developer_resources,
    OnboardDeveloper.create_bucket, OnboardDeveloper.provision_key_and_logs,
    OnboardDeveloper._setup_budget_controls,
    OnboardDeveloper._generate_config_files, OnboardDeveloper.getitem,
    OnboardDeveloper._send_welcome_email,
    OnboardDeveloper._log_onboarding_event.
  calls_only.
Qed.

Lemma unified_onboarding_continues self email department access_tier manager
    use_case idp w h h1 :
  run (UnifiedOnboarding._validate_unified_request self email department
         access_tier) w h = (Return tt, h1) ->
  exists attributes rest,
    snd (run (UnifiedOnboarding.onboard_developer_unified self email
                department access_tier manager use_case idp) w h)
    = h1 ++ cognito_admin_create_user (UnifiedOnboarding.user_pool_id self)
              (replace_at_dot email) attributes "WELCOME" "TempPass123!"
              false :: rest.
Proof.
  intros E. unfold UnifiedOnboarding.onboard_developer_unified.
  rewrite run_try_reraise, (run_bind_Return _ _ _ _ _ _ E).
  destruct (unified_identity_starts self email department access_tier
              manager w h1) as (attributes & Hstart).
  exists attributes. apply bind_starts; [exact Hstart|].
  intros info.
  unfold UnifiedOnboarding._assign_department_group,
    UnifiedOnboarding._setup_governance_resources,
    UnifiedOnboarding._setup_individual_budget,
    UnifiedOnboarding._setup_analytics_tracking,
    UnifiedOnboarding._generate_unified_config,
    UnifiedOnboarding.individual_budget_limit,
    UnifiedOnboarding._send_unified_welcome,
    UnifiedOnboarding._log_unified_onboarding_event.
  calls_only.
Qed.

(** ** Duplicate users *)

(** [onboard-developer.py] refuses a user that the identity store already
    has, and calls nothing after the lookup. *)
Lemma single_rejects_registered_user self email department access_tier
    manager use_case w h :
  let lookup := iam_get_user ("bcce-" +:+ replace_at_dot email) in
  is_Some (default ∅ (Config.departments (OnboardDeveloper.config self))
             !! department) ->
  access_tier ∈ ["sandbox"; "integration"; "production"] ->
  service w h lookup = returns tt ->
  run (OnboardDeveloper.onboard_developer self email department access_tier
         manager use_case) w h
  = (Raise (ValueError (user_already_exists email)), h ++ [lookup]).
Proof.
  intros lookup Hdepartment Htier Hfound.
  apply single_onboarding_stops. rewrite single_validation. fold lookup.
  rewrite !bool_decide_eq_true_2 by done. cbn [negb]. by rewrite Hfound.
Qed.

(** C1 fails on [unified-onboarding-enhanced.py].  With [dev-acme-com]
    already in the user pool, the validation of a request for
    [dev@acme.com] returns: the [ValueError] raised after the lookup is
    caught by the [except Exception] clause that follows it.  The onboarding
    then goes on to create the user, and stops on the refusal of the
    service. *)
Theorem C1_unified_duplicate_passes_validation :
  run (UnifiedOnboarding._validate_unified_request Fixtures.unified
         "dev@acme.com" "engineering" "sandbox")
      (Fixtures.at_time Fixtures.morning Fixtures.registered_user) []
  = (Return tt, [cognito_admin_get_user "us-east-1_EXAMPLE" "dev-acme-com"])
  ∧
  run (UnifiedOnboarding.onboard_developer_unified Fixtures.unified
         "dev@acme.com" "engineering" "sandbox" "cto@acme.com" "evaluation"
         "cognito")
      (Fixtures.at_time Fixtures.morning Fixtures.registered_user) []
  = (Raise (ClientError "UsernameExistsException"),
     [cognito_admin_get_user "us-east-1_EXAMPLE" "dev-acme-com";
      cognito_admin_create_user "us-east-1_EXAMPLE" "dev-acme-com"
        [("email", "dev@acme.com"); ("email_verified", "true");
         ("custom:department", "engineering");
         ("custom:access_tier", "sandbox");
         ("custom:budget_limit", "5000");
         ("custom:manager_email", "cto@acme.com")]
        "WELCOME" "TempPass123!" false]).
Proof. split; vm_compute; reflexivity. Qed.

(** ** Departments and tiers *)

(** C2, as stated, fails on [onboard-developer.py]: [engineering] allows
    the tiers [sandbox] and [integration], yet a request for [production]
    passes the validation and the onboarding creates the user. *)
Lemma C2_single_accepts_tier_outside_department :
  (Config.departments Fixtures.acme
   = Some {[ "engineering" :=
               {| Config.budget_limit := Some 5000%Z;
                  Config.access_tiers := Some ["sandbox"; "integration"] |} ]})
  ∧ ("production" ∉ ["sandbox"; "integration"])
  ∧ run (OnboardDeveloper._validate_onboarding_request Fixtures.single
           "dev@acme.com" "engineering" "production")
        (Fixtures.at_time Fixtures.morning Fixtures.fresh_account) []
    = (Return tt, [iam_get_user "bcce-dev-acme-com"])
  ∧ take 2 (snd (run (OnboardDeveloper.onboard_developer Fixtures.single
                        "dev@acme.com" "engineering" "production"
                        "cto@acme.com" "evaluation")
                   (Fixtures.at_time Fixtures.morning Fixtures.fresh_account)
                   []))
    = [iam_get_user "bcce-dev-acme-com";
       iam_create_user "bcce-dev-acme-com"
         [("Email", "dev@acme.com"); ("Department", "engineering");
          ("AccessTier", "production"); ("CreatedBy", "BCCE-Onboarding");
          ("Purpose", "BCCE-Developer-Access")]].
Proof.
  split; [reflexivity|]. split; [compute_done|].
  split; vm_compute; reflexivity.
Qed.

(** C2, amended.  In [unified-onboarding-enhanced.py] a request passes the
    validation when its department is in the configuration, its tier is
    among the tiers of that department ([sandbox] alone when the department
    lists none) and the user is not found in the pool; the onboarding then
    goes on to create the user.  In [onboard-developer.py] the tier is
    compared with the fixed list sandbox, integration, production, whatever
    the department allows.  In both scripts a request that fails the check
    of the department or of the tier raises a validation error before any
    service is called, and the onboarding ends there. *)
Theorem C2_validation_of_department_and_tier
    (email department access_tier : string) (w : world) (h : list call) :
  (forall self : UnifiedOnboarding.UnifiedBCCEOnboarder,
     let departments :=
       default ∅ (Config.departments (UnifiedOnboarding.config self)) in
     let allowed d := default ["sandbox"] (Config.access_tiers d) in
     let lookup :=
       cognito_admin_get_user (UnifiedOnboarding.user_pool_id self)
         (replace_at_dot email) in
     (forall d,
        departments !! department = Some d -> access_tier ∈ allowed d ->
        service w h lookup = raises "UserNotFoundException" ->
        run (UnifiedOnboarding._validate_unified_request self email
               department access_tier) w h = (Return tt, h ++ [lookup])
        ∧ forall manager use_case idp, exists attributes rest,
            snd (run (UnifiedOnboarding.onboard_developer_unified self email
                        department access_tier manager use_case idp) w h)
            = (h ++ [lookup])
              ++ cognito_admin_create_user
                   (UnifiedOnboarding.user_pool_id self)
                   (replace_at_dot email) attributes "WELCOME"
                   "TempPass123!" false :: rest)
     ∧ (departments !! department = None
        ∨ (exists d, departments !! department = Some d
                     ∧ access_tier ∉ allowed d) ->
        exists why,
          run (UnifiedOnboarding._validate_unified_request self email
                 department access_tier) w h = (Raise (ValueError why), h)
          ∧ forall manager use_case idp,
              run (UnifiedOnboarding.onboard_developer_unified self email
                     department access_tier manager use_case idp) w h
              = (Raise (ValueError why), h)))
  ∧
  (forall self : OnboardDeveloper.BCCEDeveloperOnboarder,
     let departments :=
       default ∅ (Config.departments (OnboardDeveloper.config self)) in
     let lookup := iam_get_user ("bcce-" +:+ replace_at_dot email) in
     (is_Some (departments !! department) ->
      access_tier ∈ ["sandbox"; "integration"; "production"] ->
      service w h lookup = raises "NoSuchEntityException" ->
      run (OnboardDeveloper._validate_onboarding_request self email
             department access_tier) w h = (Return tt, h ++ [lookup])
      ∧ forall manager use_case, exists tags rest,
          snd (run (OnboardDeveloper.onboard_developer self email department
                      access_tier manager use_case) w h)
          = (h ++ [lookup])
            ++ iam_create_user ("bcce-" +:+ replace_at_dot email) tags
               :: rest)
     ∧ (departments !! department = None
        ∨ access_tier ∉ ["sandbox"; "integration"; "production"] ->
        exists why,
          run (OnboardDeveloper._validate_onboarding_request self email
                 department access_tier) w h = (Raise (ValueError why), h)
          ∧ forall manager use_case,
              run (OnboardDeveloper.onboard_developer self email department
                     access_tier manager use_case) w h
              = (Raise (ValueError why), h))).
Proof.
  split; intros self departments.
  - intros allowed lookup. split.
    + intros d Hd Htier Hlookup.
      assert (run (UnifiedOnboarding._validate_unified_request self email
                     department access_tier) w h = (Return tt, h ++ [lookup]))
        as E.
      { rewrite unified_validation. fold departments. rewrite Hd.
        fold (allowed d). by rewrite bool_decide_eq_true_2. }
      split; [exact E|]. intros manager use_case idp.
      by apply unified_onboarding_continues.
    + intros Hbad.
      assert (exists why,
        run (UnifiedOnboarding._validate_unified_request self email
               department access_tier) w h = (Raise (ValueError why), h))
        as [why E].
      { rewrite unified_validation. fold departments.
        destruct Hbad as [-> | (d & -> & Htier)]; [eauto|].
        fold (allowed d). rewrite bool_decide_eq_false_2 by done. eauto. }
      exists why. split; [exact E|]. intros manager use_case idp.
      by apply unified_onboarding_stops.
  - intros lookup. split.
    + intros Hdepartment Htier Hlookup.
      assert (run (OnboardDeveloper._validate_onboarding_request self email
                     department access_tier) w h = (Return tt, h ++ [lookup]))
        as E.
      { rewrite single_validation. fold departments lookup.
        rewrite !bool_decide_eq_true_2 by done. cbn [negb].
        by rewrite Hlookup. }
      split; [exact E|]. intros manager use_case.
      by apply single_onboarding_continues.
    + intros Hbad.
      assert (exists why,
        run (OnboardDeveloper._validate_onboarding_request self email
               department access_tier) w h = (Raise (ValueError why), h))
        as [why E].
      { rewrite single_validation. fold departments.
        destruct Hbad as [Hnone | Htier].
        - rewrite Hnone, bool_decide_eq_false_2 by (by intros [? ?]).
          cbn [negb]. eauto.
        - destruct (negb (bool_decide (is_Some (departments !! department))));
            [eauto|].
          rewrite bool_decide_eq_false_2 by done. cbn [negb]. eauto. }
      exists why. split; [exact E|]. intros manager use_case.
      by apply single_onboarding_stops.
Qed.

(** A request for [engineering] and [sandbox] on a fresh account passes the
    validation of the unified script. *)
Lemma C2_witness :
  run (UnifiedOnboarding._validate_unified_request Fixtures.unified
         "dev@acme.com" "engineering" "sandbox")
      (Fixtures.at_time Fixtures.morning Fixtures.fresh_account) []
  = (Return tt,
     [] ++ [cognito_admin_get_user "us-east-1_EXAMPLE" "dev-acme-com"]).
Proof.
  refine (proj1 (proj1 (proj1 (C2_validation_of_department_and_tier
            "dev@acme.com" "engineering" "sandbox"
            (Fixtures.at_time Fixtures.morning Fixtures.fresh_account) [])
            Fixtures.unified) Fixtures.engineering _ _ _)).
  - vm_compute. reflexivity.
  - compute_done.
  - reflexivity.
Defined.

(** ** Tiers without a policy *)

Lemma policy_of_unlisted_tier self (access_tier : string) :
  access_tier ∉ ["sandbox"; "integration"; "production"] ->
  OnboardDeveloper._get_policy_arn_for_tier self access_tier = None.
Proof.
  intros (? & ? & ?)%not_a_listed_tier.
  unfold OnboardDeveloper._get_policy_arn_for_tier. by simplify_map_eq.
Qed.

(** Whatever the identity stage raises was raised by a service client. *)
Lemma identity_stage_raises_client_errors self email department access_tier
    w h e :
  fst (run (OnboardDeveloper._create_iam_user self email department
              access_tier) w h) = Raise e ->
  exists name, e = ClientError name.
Proof.
  unfold OnboardDeveloper._create_iam_user,
    OnboardDeveloper._create_developer_group.
  unfold_run. intros H. all_cases_in H.
  all: cbn [fst] in H; try discriminate H; inversion H; eauto.
Qed.

(** With the user and the access key created, the identity stage asks for
    the attachment of the policy it looked up. *)
Lemma identity_stage_attaches self email department access_tier w h arn key :
  let username := "bcce-" +:+ replace_at_dot email in
  let create :=
    iam_create_user username
      [("Email", email); ("Department", department);
       ("AccessTier", access_tier); ("CreatedBy", "BCCE-Onboarding");
       ("Purpose", "BCCE-Developer-Access")] in
  service w h create = returns arn ->
  service w (h ++ [create]) (iam_create_access_key username) = returns key ->
  exists rest,
    snd (run (OnboardDeveloper._create_iam_user self email department
                access_tier) w h)
    = h ++ [create; iam_create_access_key username;
            iam_attach_user_policy username
              (OnboardDeveloper._get_policy_arn_for_tier self access_tier)]
        ++ rest.
Proof.
  intros username create Hcreate Hkey.
  unfold OnboardDeveloper._create_iam_user,
    OnboardDeveloper._create_developer_group.
  fold username create. unfold_run. rewrite Hcreate, Hkey.
  repeat match goal with
         | |- context [service ?w ?h ?c] => destruct (service w h c)
         | |- context [if ?b then _ else _] => destruct b
         end;
    cbn [snd]; rewrite <- ?app_assoc; cbn [app]; eauto.
Qed.

(** A tier outside the fixed list does not pass the validation of
    [onboard-developer.py]. *)
Lemma single_unlisted_tier_stops self email department access_tier manager
    use_case w h :
  access_tier ∉ ["sandbox"; "integration"; "production"] ->
  exists why,
    run (OnboardDeveloper.onboard_developer self email department access_tier
           manager use_case) w h = (Raise (ValueError why), h).
Proof.
  intros Htier.
  assert (exists why,
    run (OnboardDeveloper._validate_onboarding_request self email department
           access_tier) w h = (Raise (ValueError why), h)) as [why E].
  { rewrite single_validation.
    destruct (negb (bool_decide (is_Some _))); [eauto|].
    rewrite bool_decide_eq_false_2 by done. cbn [negb]. eauto. }
  exists why. by apply single_onboarding_stops.
Qed.

(** C7, as stated, fails: no policy is mapped to the tier [admin], and the
    identity stage raises no [PolicyNotFoundError].  Where the service
    refuses an attachment without ARN, the stage ends on that refusal, the
    user and the access key being created by then; where the service accepts
    it, the stage returns a user without policy. *)
Lemma C7_unlisted_tier_raises_no_policy_error :
  OnboardDeveloper._get_policy_arn_for_tier Fixtures.single "admin" = None
  ∧ run (OnboardDeveloper._create_iam_user Fixtures.single "dev@acme.com"
           "engineering" "admin")
        (Fixtures.at_time Fixtures.morning Fixtures.checked_parameters) []
    = (Raise (ClientError "ParamValidationError"),
       [iam_create_user "bcce-dev-acme-com"
          [("Email", "dev@acme.com"); ("Department", "engineering");
           ("AccessTier", "admin"); ("CreatedBy", "BCCE-Onboarding");
           ("Purpose", "BCCE-Developer-Access")];
        iam_create_access_key "bcce-dev-acme-com";
        iam_attach_user_policy "bcce-dev-acme-com" None])
  ∧ result_map OnboardDeveloper.policy_arn
      (fst (run (OnboardDeveloper._create_iam_user Fixtures.single
                   "dev@acme.com" "engineering" "admin")
              (Fixtures.at_time Fixtures.morning Fixtures.fresh_account) []))
    = Return None.
Proof. repeat split; vm_compute; reflexivity. Qed.

(** C7, amended.  If no policy is mapped to the requested tier, the lookup
    of the policy gives [None] and the identity stage raises no
    [PolicyNotFoundError]: it first creates the user, then the access key,
    then asks for the attachment of an absent policy, and fails only where
    a service call fails.  In the onboarding such a tier does not reach the
    identity stage: the validation has raised a validation error before any
    service is called. *)
Theorem C7_unlisted_tier_gives_absent_policy
    (self : OnboardDeveloper.BCCEDeveloperOnboarder)
    (email department access_tier : string) (w : world) (h : list call) :
  access_tier ∉ ["sandbox"; "integration"; "production"] ->
  let username := "bcce-" +:+ replace_at_dot email in
  let create :=
    iam_create_user username
      [("Email", email); ("Department", department);
       ("AccessTier", access_tier); ("CreatedBy", "BCCE-Onboarding");
       ("Purpose", "BCCE-Developer-Access")] in
  let stage :=
    run (OnboardDeveloper._create_iam_user self email department access_tier)
      w h in
  OnboardDeveloper._get_policy_arn_for_tier self access_tier = None
  ∧ fst stage ≠ Raise PolicyNotFoundError
  ∧ (forall e, fst stage = Raise e -> exists name, e = ClientError name)
  ∧ (exists rest, snd stage = h ++ create :: rest)
  ∧ (forall arn key,
       service w h create = returns arn ->
       service w (h ++ [create]) (iam_create_access_key username)
       = returns key ->
       exists rest,
         snd stage
         = h ++ [create; iam_create_access_key username;
                 iam_attach_user_policy username None] ++ rest)
  ∧ (forall manager use_case, exists why,
       run (OnboardDeveloper.onboard_developer self email department
              access_tier manager use_case) w h
       = (Raise (ValueError why), h)).
Proof.
  intros Hunlisted username create stage.
  pose proof (policy_of_unlisted_tier self _ Hunlisted) as Hpolicy.
  split; [exact Hpolicy|]. split; [|split; [|split; [|split]]].
  - intros H.
    apply identity_stage_raises_client_errors in H as [name H].
    discriminate H.
  - apply identity_stage_raises_client_errors.
  - apply single_identity_starts.
  - intros arn key Hcreate Hkey. rewrite <- Hpolicy.
    by eapply identity_stage_attaches.
  - intros manager use_case.
    by apply single_unlisted_tier_stops.
Qed.

(** The tier [admin] has no policy. *)
Lemma C7_witness :
  OnboardDeveloper._get_policy_arn_for_tier Fixtures.single "admin" = None.
Proof.
  refine (proj1 (C7_unlisted_tier_gives_absent_policy Fixtures.single
            "dev@acme.com" "engineering" "admin"
            (Fixtures.at_time Fixtures.morning Fixtures.checked_parameters)
            [] _)).
  compute_done.
Defined.

(** ** The configuration files *)

(** C3, as stated, fails: the environment block carries the time of its
    generation, so that the same inputs rendered in the morning and in the
    evening give two different blocks. *)
Lemma C3_env_vars_change_with_the_clock :
  result_map OnboardDeveloper.env_vars
    (fst (run (OnboardDeveloper._generate_config_files Fixtures.single
                 "dev@acme.com" Fixtures.user_info Fixtures.resources
                 "sandbox")
            (Fixtures.at_time Fixtures.morning Fixtures.fresh_account) []))
  ≠ result_map OnboardDeveloper.env_vars
      (fst (run (OnboardDeveloper._generate_config_files Fixtures.single
                   "dev@acme.com" Fixtures.user_info Fixtures.resources
                   "sandbox")
              (Fixtures.at_time Fixtures.evening Fixtures.fresh_account) [])).
Proof. vm_compute. intros H. discriminate H. Qed.

Lemma single_config_files_calls self email user_info resources access_tier :
  calls_only (fun c => c = datetime_utcnow)
    (OnboardDeveloper._generate_config_files self email user_info resources
       access_tier).
Proof.
  unfold OnboardDeveloper._generate_config_files, OnboardDeveloper.getitem.
  calls_only.
Qed.

Lemma unified_config_files_calls self email user_info resources access_tier
    idp :
  calls_only (fun c => c = datetime_utcnow)
    (UnifiedOnboarding._generate_unified_config self email user_info
       resources access_tier idp).
Proof.
  unfold UnifiedOnboarding._generate_unified_config,
    UnifiedOnboarding.individual_budget_limit.
  calls_only.
Qed.

(** C3, amended.  The configuration object is a function of the inputs of
    the stage (in the unified script, of the onboarder as well): two calls
    with the same inputs give the same object, or raise the same exception.
    The environment block depends, besides, on the time of the call: two
    calls with the same inputs at the same time give the same files.  The
    stage calls no service; it reads the clock. *)
Theorem C3_config_files_from_inputs_and_clock :
  (forall self email user_info resources access_tier w1 h1 w2 h2,
     let stage :=
       OnboardDeveloper._generate_config_files self email user_info resources
         access_tier in
     result_map OnboardDeveloper.bcce_config (fst (run stage w1 h1))
     = result_map OnboardDeveloper.bcce_config (fst (run stage w2 h2))
     ∧ (isoformat (clock w1 h1) = isoformat (clock w2 h2) ->
        fst (run stage w1 h1) = fst (run stage w2 h2))
     ∧ calls_only (fun c => c = datetime_utcnow) stage)
  ∧
  (forall self email user_info governance_resources access_tier idp_provider
          w1 h1 w2 h2,
     let stage :=
       UnifiedOnboarding._generate_unified_config self email user_info
         governance_resources access_tier idp_provider in
     result_map UnifiedOnboarding.unified_config (fst (run stage w1 h1))
     = result_map UnifiedOnboarding.unified_config (fst (run stage w2 h2))
     ∧ (isoformat (clock w1 h1) = isoformat (clock w2 h2) ->
        fst (run stage w1 h1) = fst (run stage w2 h2))
     ∧ calls_only (fun c => c = datetime_utcnow) stage).
Proof.
  split.
  - intros self email user_info resources access_tier w1 h1 w2 h2 stage.
    split; [|split; [|apply single_config_files_calls]].
    + unfold stage, OnboardDeveloper._generate_config_files,
        OnboardDeveloper.getitem.
      unfold_run. destruct (split "@" email !! 1) as [domain|]; [|done].
      by destruct (split "." domain !! 0).
    + intros Hclock.
      unfold stage, OnboardDeveloper._generate_config_files,
        OnboardDeveloper.getitem.
      unfold_run. destruct (split "@" email !! 1) as [domain|]; [|done].
      destruct (split "." domain !! 0); [|done].
      cbn [fst]. by rewrite Hclock.
  - intros self email user_info resources access_tier idp w1 h1 w2 h2 stage.
    split; [|split; [|apply unified_config_files_calls]].
    + unfold stage, UnifiedOnboarding._generate_unified_config,
        UnifiedOnboarding.individual_budget_limit.
      unfold_run.
      by destruct (UnifiedOnboarding.individual_budget resources).
    + intros Hclock.
      unfold stage, UnifiedOnboarding._generate_unified_config,
        UnifiedOnboarding.individual_budget_limit.
      unfold_run.
      destruct (UnifiedOnboarding.individual_budget resources); [|done].
      cbn [fst]. by rewrite Hclock.
Qed.

(** Two worlds whose clocks agree render the same files. *)
Lemma C3_witness :
  fst (run (OnboardDeveloper._generate_config_files Fixtures.single
              "dev@acme.com" Fixtures.user_info Fixtures.resources "sandbox")
         (Fixtures.at_time Fixtures.morning Fixtures.fresh_account) [])
  = fst (run (OnboardDeveloper._generate_config_files Fixtures.single
                "dev@acme.com" Fixtures.user_info Fixtures.resources
                "sandbox")
           (Fixtures.at_time Fixtures.morning Fixtures.registered_user)
           [sts_get_caller_identity]).
Proof.
  refine (proj1 (proj2 (proj1 C3_config_files_from_inputs_and_clock
            Fixtures.single "dev@acme.com" Fixtures.user_info
            Fixtures.resources "sandbox"
            (Fixtures.at_time Fixtures.morning Fixtures.fresh_account) []
            (Fixtures.at_time Fixtures.morning Fixtures.registered_user)
            [sts_get_caller_identity])) _).
  reflexivity.
Defined.

(** ** Dry runs *)

Lemma single_init_calls config :
  calls_only (fun c => is_provisioning c = false)
    (OnboardDeveloper.__init__ config).
Proof. unfold OnboardDeveloper.__init__. calls_only. Qed.

Lemma unified_init_calls config :
  calls_only (fun c => is_provisioning c = false)
    (UnifiedOnboarding.__init__ config).
Proof. unfold UnifiedOnboarding.__init__. calls_only. Qed.

Lemma single_validation_calls self email department access_tier :
  calls_only (fun c => is_provisioning c = false)
    (OnboardDeveloper._validate_onboarding_request self email department
       access_tier).
Proof. unfold OnboardDeveloper._validate_onboarding_request. calls_only. Qed.

Lemma unified_validation_calls self email department access_tier :
  calls_only (fun c => is_provisioning c = false)
    (UnifiedOnboarding._validate_unified_request self email department
       access_tier).
Proof. unfold UnifiedOnboarding._validate_unified_request. calls_only. Qed.

Lemma calls_only_twice {A B} (P : call -> Prop) (m1 : M A) (m2 : A -> M B)
    w h r1 h1 :
  calls_only P m1 -> (forall a, calls_only P (m2 a)) ->
  run m1 w h = (r1, h1) ->
  (exists more, h1 = h ++ more ∧ Forall P more)
  ∧ forall a, exists more,
      snd (run (m2 a) w h1) = h ++ more ∧ Forall P more.
Proof.
  intros H1 H2 E. destruct (H1 w h) as (more & E1 & HP).
  rewrite E in E1. cbn [snd] in E1. subst h1. split; [eauto|].
  intros a. destruct (H2 a w (h ++ more)) as (more' & -> & HP').
  exists (more ++ more'). rewrite app_assoc. split; [done|].
  by apply Forall_app.
Qed.

(** C9.  In a dry run, of either script, the only calls are the lookup of
    the caller identity and the lookup of the user: no call creates or
    changes anything.  Once the onboarder is built, the process ends with
    status 0 if the validation returns and with status 1 if it raises. *)
Theorem C9_dry_run_only_validates :
  (forall args w h,
     OnboardDeveloper.arg_dry_run args = true ->
     (exists more,
        snd (OnboardDeveloper.main args w h) = h ++ more
        ∧ Forall (fun c => is_provisioning c = false) more)
     ∧ (forall config onboarder h1,
          OnboardDeveloper.arg_access_tier args
            ∈ ["sandbox"; "integration"; "production"] ->
          files w (OnboardDeveloper.arg_config args) = Some config ->
          run (OnboardDeveloper.__init__ config) w h = (Return onboarder, h1) ->
          let validation :=
            run (OnboardDeveloper._validate_onboarding_request onboarder
                   (OnboardDeveloper.arg_email args)
                   (OnboardDeveloper.arg_department args)
                   (OnboardDeveloper.arg_access_tier args)) w h1 in
          OnboardDeveloper.main args w h
          = (if is_Return (fst validation) then 0%Z else 1%Z,
             snd validation)))
  ∧
  (forall args w h,
     UnifiedOnboarding.arg_dry_run args = true ->
     (exists more,
        snd (UnifiedOnboarding.main args w h) = h ++ more
        ∧ Forall (fun c => is_provisioning c = false) more)
     ∧ (forall config onboarder h1,
          UnifiedOnboarding.arg_access_tier args
            ∈ ["sandbox"; "integration"; "production"] ->
          UnifiedOnboarding.arg_idp_provider args
            ∈ ["cognito"; "okta"; "azure_ad"; "auth0"] ->
          files w (UnifiedOnboarding.arg_config args) = Some config ->
          run (UnifiedOnboarding.__init__ config) w h
          = (Return onboarder, h1) ->
          let validation :=
            run (UnifiedOnboarding._validate_unified_request onboarder
                   (UnifiedOnboarding.arg_email args)
                   (UnifiedOnboarding.arg_department args)
                   (UnifiedOnboarding.arg_access_tier args)) w h1 in
          UnifiedOnboarding.main args w h
          = (if is_Return (fst validation) then 0%Z else 1%Z,
             snd validation))).
Proof.
  assert (forall h : list call, exists more,
            h = h ++ more ∧ Forall (fun c => is_provisioning c = false) more)
    as Hnone by (intros h; exists []; by rewrite app_nil_r).
  split; intros args w h Hdry; (split; [|intros config onboarder h1]).
  - unfold OnboardDeveloper.main. rewrite Hdry.
    destruct (negb _); [apply Hnone|].
    destruct (files w _) as [config|]; [|apply Hnone].
    destruct (run (OnboardDeveloper.__init__ config) w h) as [r1 h1] eqn:E1.
    destruct (calls_only_twice _ _
                (fun onboarder =>
                   OnboardDeveloper._validate_onboarding_request onboarder
                     (OnboardDeveloper.arg_email args)
                     (OnboardDeveloper.arg_department args)
                     (OnboardDeveloper.arg_access_tier args))
                w h r1 h1 (single_init_calls config)
                (fun a => single_validation_calls a _ _ _) E1)
      as [Hinit Hvalidate].
    destruct r1 as [onboarder|e]; [|exact Hinit].
    destruct (Hvalidate onboarder) as (more & E2 & HP).
    destruct (run (OnboardDeveloper._validate_onboarding_request _ _ _ _) w h1)
      as [[[]|e] h2]; cbn [snd] in *; eauto.
  - intros Htier Hfile Hinit validation.
    unfold OnboardDeveloper.main.
    rewrite Hdry, bool_decide_eq_true_2, Hfile, Hinit by done. cbn [negb].
    subst validation.
    by destruct (run (OnboardDeveloper._validate_onboarding_request _ _ _ _)
                   w h1) as [[[]|e] h2].
  - unfold UnifiedOnboarding.main. rewrite Hdry.
    destruct (_ || _); [apply Hnone|].
    destruct (files w _) as [config|]; [|apply Hnone].
    destruct (run (UnifiedOnboarding.__init__ config) w h) as [r1 h1] eqn:E1.
    destruct (calls_only_twice _ _
                (fun onboarder =>
                   UnifiedOnboarding._validate_unified_request onboarder
                     (UnifiedOnboarding.arg_email args)
                     (UnifiedOnboarding.arg_department args)
                     (UnifiedOnboarding.arg_access_tier args))
                w h r1 h1 (unified_init_calls config)
                (fun a => unified_validation_calls a _ _ _) E1)
      as [Hinit Hvalidate].
    destruct r1 as [onboarder|e]; [|exact Hinit].
    destruct (Hvalidate onboarder) as (more & E2 & HP).
    destruct (run (UnifiedOnboarding._validate_unified_request _ _ _ _) w h1)
      as [[[]|e] h2]; cbn [snd] in *; eauto.
  - intros Htier Hidp Hfile Hinit validation.
    unfold UnifiedOnboarding.main.
    rewrite Hdry, !bool_decide_eq_true_2, Hfile, Hinit by done.
    cbn [negb orb]. subst validation.
    by destruct (run (UnifiedOnboarding._validate_unified_request _ _ _ _)
                   w h1) as [[[]|e] h2].
Qed.

(** A dry run for [dev@acme.com] on a fresh account: two lookups, status 0. *)
Lemma C9_witness :
  OnboardDeveloper.main Fixtures.dry_run
    (Fixtures.at_time Fixtures.morning Fixtures.fresh_account) []
  = (0%Z, [sts_get_caller_identity; iam_get_user "bcce-dev-acme-com"]).
Proof.
  refine (proj2 (proj1 C9_dry_run_only_validates Fixtures.dry_run
            (Fixtures.at_time Fixtures.morning Fixtures.fresh_account) []
            eq_refl) Fixtures.acme Fixtures.single [sts_get_caller_identity]
            _ _ _).
  - compute_done.
  - reflexivity.
  - reflexivity.
Defined.

(** ** Failures of the bucket and of the budget *)

(** The resource stage of [onboard-developer.py]: whatever happens to the
    bucket, the key is asked for next. *)
Lemma single_resource_stage self email department access_tier w h :
  let bucket_name :=
    "bcce-" +:+ replace_at_dot email +:+ "-"
    +:+ String.substring 0 8 (OnboardDeveloper.account_id self) in
  let bucket := run (OnboardDeveloper.create_bucket self email bucket_name) w h in
  run (OnboardDeveloper._provision_developer_resources self email department
         access_tier) w h
  = run (OnboardDeveloper.provision_key_and_logs email department access_tier
           (if is_Return (fst bucket) then Some bucket_name else None))
        w (snd bucket).
Proof.
  intros bucket_name bucket.
  unfold OnboardDeveloper._provision_developer_resources.
  fold bucket_name. rewrite run_bind, run_try_except, run_bind.
  fold bucket. by destruct bucket as [[[]|e] h1].
Qed.

Lemma single_key_and_logs email department access_tier bucket_name w h key :
  let create_key :=
    kms_create_key ("BCCE encryption key for " +:+ email) "ENCRYPT_DECRYPT"
      [("Owner", email); ("Department", department);
       ("Purpose", "BCCE-Developer-Encryption")] in
  let log_group_name := "/bcce/developer/" +:+ replace_at_dot email in
  service w h create_key = returns key ->
  run (OnboardDeveloper.provision_key_and_logs email department access_tier
         bucket_name) w h
  = (Return {| OnboardDeveloper.s3_bucket := bucket_name;
               OnboardDeveloper.kms_key_id := KeyId key;
               OnboardDeveloper.kms_key_arn := Arn key;
               OnboardDeveloper.log_group_name := log_group_name |},
     h ++ [create_key; cloudwatch_describe_log_groups log_group_name]).
Proof.
  intros create_key log_group_name Hkey.
  unfold OnboardDeveloper.provision_key_and_logs.
  fold create_key log_group_name.
  unfold_run. rewrite Hkey, <- app_assoc.
  by destruct (service w (h ++ [create_key]) _) as [[]|name].
Qed.

Lemma split_at_second (sep : ascii) (s : string) :
  sep ∈ list_ascii_of_string s -> is_Some (split sep s !! 1).
Proof.
  induction s as [|c s IH]; cbn; intros H.
  - by apply elem_of_nil in H.
  - destruct (Ascii.eqb_spec c sep) as [->|Hne].
    + destruct s as [|c' s]; cbn; [eauto|].
      destruct (Ascii.eqb c' sep); [eauto|].
      destruct (split sep s); eauto.
    + apply elem_of_cons in H as [H|H]; [congruence|].
      destruct (IH H) as [x Hx].
      destruct (split sep s) as [|first rest]; [done|].
      cbn in Hx |- *. eauto.
Qed.

Lemma split_at_first (sep : ascii) (s : string) :
  is_Some (split sep s !! 0).
Proof.
  destruct s as [|c s]; cbn; [eauto|].
  destruct (Ascii.eqb c sep); [eauto|]. destruct (split sep s); eauto.
Qed.

(** The configuration files exist for every email with an [@]. *)
Lemma single_config_files_return self email user_info resources access_tier
    w h :
  "@"%char ∈ list_ascii_of_string email ->
  exists files,
    run (OnboardDeveloper._generate_config_files self email user_info
           resources access_tier) w h
    = (Return files, h ++ [datetime_utcnow])
    ∧ OnboardDeveloper.bcce_s3_bucket (OnboardDeveloper.bcce_config files)
      = OnboardDeveloper.s3_bucket resources.
Proof.
  intros [domain Hdomain]%split_at_second.
  destruct (split_at_first "." domain) as [department Hdepartment].
  unfold OnboardDeveloper._generate_config_files, OnboardDeveloper.getitem.
  unfold_run. rewrite Hdomain. cbv beta match.
  rewrite Hdepartment. cbv beta match. eauto.
Qed.

(** In [onboard-developer.py] a failure while the bucket is created and a
    failure while the budget is created do not leave their stage: the
    resource stage goes on to the key with the bucket set to [None], the
    budget stage returns with the budget name set to [None].  An onboarding
    that reached the resource stage, whose key is created and whose email
    has an [@], then returns its result whatever happened to the bucket and
    to the budget, with [None] in the corresponding fields, after the stages
    that follow have run. *)
Theorem single_bucket_and_budget_failures_are_absorbed
    (self : OnboardDeveloper.BCCEDeveloperOnboarder)
    (email department access_tier manager_email use_case : string)
    (w : world) :
  let bucket_name :=
    "bcce-" +:+ replace_at_dot email +:+ "-"
    +:+ String.substring 0 8 (OnboardDeveloper.account_id self) in
  let create_key :=
    kms_create_key ("BCCE encryption key for " +:+ email) "ENCRYPT_DECRYPT"
      [("Owner", email); ("Department", department);
       ("Purpose", "BCCE-Developer-Encryption")] in
  let describe :=
    cloudwatch_describe_log_groups
      ("/bcce/developer/" +:+ replace_at_dot email) in
  let create_budget :=
    budgets_create_budget (OnboardDeveloper.account_id self)
      (OnboardDeveloper.budget email access_tier)
      (OnboardDeveloper.notifications self email department) in
  (forall h e h1,
     run (OnboardDeveloper.create_bucket self email bucket_name) w h
     = (Raise e, h1) ->
     run (OnboardDeveloper._provision_developer_resources self email
            department access_tier) w h
     = run (OnboardDeveloper.provision_key_and_logs email department
              access_tier None) w h1)
  ∧ (forall h name,
       service w h create_budget = raises name ->
       exists info,
         run (OnboardDeveloper._setup_budget_controls self email department
                access_tier) w h = (Return info, h ++ [create_budget])
         ∧ OnboardDeveloper.budget_name info = None)
  ∧ (forall h0 h1 info h2,
       run (OnboardDeveloper._validate_onboarding_request self email
              department access_tier) w h0 = (Return tt, h1) ->
       run (OnboardDeveloper._create_iam_user self email department
              access_tier) w h1 = (Return info, h2) ->
       let bucket :=
         run (OnboardDeveloper.create_bucket self email bucket_name) w h2 in
       let h3 := snd bucket ++ [create_key; describe] in
       (exists key, service w (snd bucket) create_key = returns key) ->
       "@"%char ∈ list_ascii_of_string email ->
       exists result,
         run (OnboardDeveloper.onboard_developer self email department
                access_tier manager_email use_case) w h0
         = (Return result,
            h3 ++ [create_budget; datetime_utcnow; datetime_utcnow;
                   datetime_utcnow])
         ∧ OnboardDeveloper.status result = "success"
         ∧ (is_Return (fst bucket) = false ->
            OnboardDeveloper.s3_bucket (OnboardDeveloper.resources result)
            = None)
         ∧ (forall name,
              service w h3 create_budget = raises name ->
              OnboardDeveloper.budget_name
                (OnboardDeveloper.budget_info result) = None)).
Proof.
  intros bucket_name create_key describe create_budget.
  split; [|split].
  - intros h e h1 E. rewrite single_resource_stage. fold bucket_name.
    by rewrite E.
  - intros h name E. rewrite single_budget_stage. fold create_budget.
    rewrite E. eauto.
  - intros h0 h1 info h2 Hvalidate Hidentity bucket h3 [key Hkey] Hat.
    unfold OnboardDeveloper.onboard_developer.
    rewrite run_try_reraise, (run_bind_Return _ _ _ _ _ _ Hvalidate),
      (run_bind_Return _ _ _ _ _ _ Hidentity).
    rewrite run_bind, single_resource_stage. fold bucket_name bucket.
    rewrite (single_key_and_logs _ _ _ _ _ _ _ Hkey).
    fold create_key describe h3. cbv beta match.
    rewrite run_bind, single_budget_stage. fold create_budget.
    cbv beta match zeta.
    match goal with
    | |- context [OnboardDeveloper._generate_config_files ?s ?e ?u ?r ?t] =>
        destruct (single_config_files_return s e u r t w
                    (h3 ++ [create_budget]) Hat) as (files & Hfiles & _)
    end.
    rewrite (run_bind_Return _ _ _ _ _ _ Hfiles).
    unfold OnboardDeveloper._send_welcome_email,
      OnboardDeveloper._log_onboarding_event.
    unfold_run. cbv beta match. rewrite <- !app_assoc. cbn [app].
    eexists. split; [reflexivity|]. cbn.
    split; [reflexivity|]. split.
    + intros ->. reflexivity.
    + intros name E. by rewrite E.
Qed.

(** An onboarding where neither the bucket nor the budget can be created
    returns, with both fields set to [None]. *)
Lemma single_failures_absorbed_witness :
  exists result,
    fst (run (OnboardDeveloper.onboard_developer Fixtures.single
                "dev@acme.com" "engineering" "sandbox" "cto@acme.com"
                "evaluation")
           (Fixtures.at_time Fixtures.morning Fixtures.no_bucket_no_budget)
           [])
    = Return result
    ∧ OnboardDeveloper.s3_bucket (OnboardDeveloper.resources result) = None
    ∧ OnboardDeveloper.budget_name (OnboardDeveloper.budget_info result)
      = None.
Proof.
  edestruct (proj2 (proj2 (single_bucket_and_budget_failures_are_absorbed
               Fixtures.single "dev@acme.com" "engineering" "sandbox"
               "cto@acme.com" "evaluation"
               (Fixtures.at_time Fixtures.morning
                  Fixtures.no_bucket_no_budget))) [])
    as (result & Hrun & _ & Hbucket & Hbudget).
  - vm_compute. reflexivity.
  - vm_compute. reflexivity.
  - eexists. vm_compute. reflexivity.
  - compute_done.
  - exists result. rewrite Hrun. split; [reflexivity|]. split.
    + apply Hbucket. reflexivity.
    + apply (Hbudget "AccessDeniedException"). reflexivity.
Defined.

(** C4 fails on [unified-onboarding-enhanced.py].  Where the budget is
    refused, the budget stage does what the claim says: it returns, with
    the budget name set to [None].  But the configuration stage that
    follows reads the limit of the budget that was not created, so that
    the onboarding of [dev@acme.com], with the user created and added to
    the group, ends on a [KeyError] instead of returning a result.
    [onboard-developer.py] has no such reading and returns its result,
    see [single_bucket_and_budget_failures_are_absorbed]. *)
Theorem C4_unified_budget_failure_leaves_the_pipeline :
  run (UnifiedOnboarding._setup_individual_budget Fixtures.unified
         "dev@acme.com" "engineering" "sandbox")
      (Fixtures.at_time Fixtures.morning Fixtures.no_bucket_no_budget) []
  = (Return (UnifiedOnboarding.budget_not_created
               (ClientError "AccessDeniedException")),
     [budgets_create_budget "123456789012"
        (UnifiedOnboarding.budget "dev@acme.com" "sandbox")
        (UnifiedOnboarding.notifications "dev@acme.com")])
  ∧ UnifiedOnboarding.budget_name
      (UnifiedOnboarding.budget_not_created
         (ClientError "AccessDeniedException")) = None
  ∧ fst (run (UnifiedOnboarding.onboard_developer_unified Fixtures.unified
                "dev@acme.com" "engineering" "sandbox" "cto@acme.com"
                "evaluation" "cognito")
           (Fixtures.at_time Fixtures.morning Fixtures.no_bucket_no_budget)
           [])
    = Raise (KeyError "budget_limit")
  ∧ take 4
      (snd (run (UnifiedOnboarding.onboard_developer_unified Fixtures.unified
                   "dev@acme.com" "engineering" "sandbox" "cto@acme.com"
                   "evaluation" "cognito")
              (Fixtures.at_time Fixtures.morning
                 Fixtures.no_bucket_no_budget) []))
    = [cognito_admin_get_user "us-east-1_EXAMPLE" "dev-acme-com";
       cognito_admin_create_user "us-east-1_EXAMPLE" "dev-acme-com"
         [("email", "dev@acme.com"); ("email_verified", "true");
          ("custom:department", "engineering");
          ("custom:access_tier", "sandbox");
          ("custom:budget_limit", "5000");
          ("custom:manager_email", "cto@acme.com")]
         "WELCOME" "TempPass123!" false;
       cognito_admin_add_user_to_group "us-east-1_EXAMPLE" "dev-acme-com"
         "engineering";
       budgets_create_budget "123456789012"
         (UnifiedOnboarding.budget "dev@acme.com" "sandbox")
         (UnifiedOnboarding.notifications "dev@acme.com")].
Proof. repeat split; vm_compute; reflexivity. Qed.

(** * Further properties of the two scripts *)

(** ** The derived name *)

Lemma length_replace (old new : ascii) (s : string) :
  String.length (replace old (String new EmptyString) s) = String.length s.
Proof.
  induction s as [|c s IH]; [reflexivity|]. simpl.
  destruct (Ascii.eqb c old); simpl; by f_equal.
Qed.

Lemma chars_replace (old new c : ascii) (s : string) :
  c ∈ list_ascii_of_string (replace old (String new EmptyString) s) ->
  c = new ∨ (c ≠ old ∧ c ∈ list_ascii_of_string s).
Proof.
  induction s as [|c' s IH]; cbn; [by intros ?%elem_of_nil|].
  destruct (Ascii.eqb_spec c' old) as [->|Hne]; cbn;
    intros [->|H]%elem_of_cons; auto.
  - destruct (IH H) as [?|[? ?]]; [auto|]. right. split; [done|].
    by apply list_elem_of_further.
  - right. split; [done|]. apply list_elem_of_here.
  - destruct (IH H) as [?|[? ?]]; [auto|]. right. split; [done|].
    by apply list_elem_of_further.
Qed.

(** A character that is neither the old nor the new one is where it was. *)
Lemma replace_without (old : ascii) (new s : string) :
  old ∉ list_ascii_of_string s -> replace old new s = s.
Proof.
  induction s as [|c s IH]; [reflexivity|]. cbn.
  intros [Hne Hrest]%not_elem_of_cons.
  destruct (Ascii.eqb_spec c old) as [->|_]; [done|]. by rewrite IH.
Qed.

(** X1.  The derived name has the length of the email and contains neither
    [@] nor [.]; deriving a name from a derived name changes nothing. *)
Theorem replace_at_dot_is_clean (email : string) :
  String.length (replace_at_dot email) = String.length email
  ∧ ("@"%char ∉ list_ascii_of_string (replace_at_dot email))
  ∧ ("."%char ∉ list_ascii_of_string (replace_at_dot email))
  ∧ replace_at_dot (replace_at_dot email) = replace_at_dot email.
Proof.
  assert ("@"%char ∉ list_ascii_of_string (replace_at_dot email)) as Hat.
  { unfold replace_at_dot. change "-" with (String "-"%char EmptyString).
    intros [?|[_ [?|[? _]]%chars_replace]]%chars_replace; done. }
  assert ("."%char ∉ list_ascii_of_string (replace_at_dot email)) as Hdot.
  { unfold replace_at_dot. change "-" with (String "-"%char EmptyString).
    intros [?|[? _]]%chars_replace; done. }
  split; [|split; [done|split; [done|]]].
  - unfold replace_at_dot. change "-" with (String "-"%char EmptyString).
    by rewrite !length_replace.
  - unfold replace_at_dot at 1.
    by rewrite (replace_without "@"), (replace_without ".").
Qed.

(** X2.  Two emails with the same derived name are one user to the
    validation of [onboard-developer.py]: it looks up the same name for
    both, and lets one pass exactly when it lets the other pass. *)
Theorem colliding_emails_are_one_user
    (self : OnboardDeveloper.BCCEDeveloperOnboarder)
    (email1 email2 department access_tier : string)
    (w : world) (h : list call) :
  replace_at_dot email1 = replace_at_dot email2 ->
  snd (run (OnboardDeveloper._validate_onboarding_request self email1
              department access_tier) w h)
  = snd (run (OnboardDeveloper._validate_onboarding_request self email2
                department access_tier) w h)
  ∧ is_Return (fst (run (OnboardDeveloper._validate_onboarding_request self
                           email1 department access_tier) w h))
    = is_Return (fst (run (OnboardDeveloper._validate_onboarding_request self
                             email2 department access_tier) w h)).
Proof.
  intros Hsame. rewrite !single_validation, Hsame.
  destruct (negb (bool_decide (is_Some _))); [done|].
  destruct (negb (bool_decide (access_tier ∈ _))); [done|].
  cbn [fst snd]. split; [done|].
  destruct (service w h _) as [[]|name]; [done|].
  by destruct (String.eqb name "NoSuchEntityException").
Qed.

(** [first.last@acme.com] and [first-last@acme.com] are one user: with the
    first registered, the second is refused. *)
Lemma colliding_emails_witness :
  "first.last@acme.com" ≠ "first-last@acme.com"
  ∧ is_Return
      (fst (run (OnboardDeveloper._validate_onboarding_request
                   Fixtures.single "first-last@acme.com" "engineering"
                   "sandbox")
              (Fixtures.at_time Fixtures.morning Fixtures.registered_user) []))
    = is_Return
        (fst (run (OnboardDeveloper._validate_onboarding_request
                     Fixtures.single "first.last@acme.com" "engineering"
                     "sandbox")
                (Fixtures.at_time Fixtures.morning Fixtures.registered_user)
                [])).
Proof.
  split; [discriminate|].
  refine (proj2 (colliding_emails_are_one_user Fixtures.single
            "first-last@acme.com" "first.last@acme.com" "engineering"
            "sandbox"
            (Fixtures.at_time Fixtures.morning Fixtures.registered_user) []
            _)).
  reflexivity.
Defined.

(** ** Taking a returned computation apart *)

Lemma run_bind_inv {A B} (m : M A) (k : A -> M B) w h b h' :
  run (m ≫= k) w h = (Return b, h') ->
  exists a h1, run m w h = (Return a, h1) ∧ run (k a) w h1 = (Return b, h').
Proof.
  rewrite run_bind. destruct (run m w h) as [[a|e] h1]; [eauto|done].
Qed.

(** A computation that never returns stops every sequence it is part of. *)
Lemma never_returns_bind_l {A B} (m : M A) (k : A -> M B) w h :
  is_Return (fst (run m w h)) = false ->
  is_Return (fst (run (m ≫= k) w h)) = false.
Proof. rewrite run_bind. by destruct (run m w h) as [[a|e] h1]. Qed.

Lemma never_returns_bind_r {A B} (m : M A) (k : A -> M B) w h :
  (forall a h1, is_Return (fst (run (k a) w h1)) = false) ->
  is_Return (fst (run (m ≫= k) w h)) = false.
Proof.
  intros Hk. rewrite run_bind. destruct (run m w h) as [[a|e] h1]; [|done].
  apply Hk.
Qed.

(** ** The identity stage of [onboard-developer.py] *)

(** X3.  For a department and a tier written in ASCII (where [title] is
    [str.title()]): when the group of the department and tier does not
    exist, the identity stage creates it, attaches to it the policy it
    attached to the user, and adds the user again. *)
Theorem identity_stage_creates_missing_group
    (self : OnboardDeveloper.BCCEDeveloperOnboarder)
    (email department access_tier : string) (w : world) (h : list call)
    (arn : string) (key : access_key) :
  let username := "bcce-" +:+ replace_at_dot email in
  let group := "BCCE-" +:+ title department +:+ "-" +:+ title access_tier in
  let policy := OnboardDeveloper._get_policy_arn_for_tier self access_tier in
  let create :=
    iam_create_user username
      [("Email", email); ("Department", department);
       ("AccessTier", access_tier); ("CreatedBy", "BCCE-Onboarding");
       ("Purpose", "BCCE-Developer-Access")] in
  let create_key := iam_create_access_key username in
  let attach := iam_attach_user_policy username policy in
  let add := iam_add_user_to_group group username in
  let create_group := iam_create_group group in
  let attach_group := iam_attach_group_policy group policy in
  Forall (fun c => (nat_of_ascii c < 128)%nat)
    (list_ascii_of_string department) ->
  Forall (fun c => (nat_of_ascii c < 128)%nat)
    (list_ascii_of_string access_tier) ->
  service w h create = returns arn ->
  service w (h ++ [create]) create_key = returns key ->
  service w (h ++ [create; create_key]) attach = returns tt ->
  service w (h ++ [create; create_key; attach]) add
  = raises "NoSuchEntityException" ->
  service w (h ++ [create; create_key; attach; add]) create_group
  = returns tt ->
  service w (h ++ [create; create_key; attach; add; create_group])
    attach_group = returns tt ->
  service w (h ++ [create; create_key; attach; add; create_group;
                   attach_group]) add = returns tt ->
  run (OnboardDeveloper._create_iam_user self email department access_tier)
    w h
  = (Return {| OnboardDeveloper.username := username;
               OnboardDeveloper.user_arn := arn;
               OnboardDeveloper.access_key_id := AccessKeyId key;
               OnboardDeveloper.secret_access_key := SecretAccessKey key;
               OnboardDeveloper.policy_arn := policy;
               OnboardDeveloper.group_name := group |},
     h ++ [create; create_key; attach; add; create_group; attach_group;
           add]).
Proof.
  intros username group policy create create_key attach add create_group
    attach_group _ _ H1 H2 H3 H4 H5 H6 H7.
  unfold OnboardDeveloper._create_iam_user,
    OnboardDeveloper._create_developer_group.
  fold username group policy create create_key attach add create_group
    attach_group.
  unfold_run. rewrite H1. cbv beta match. rewrite H2. cbv beta match.
  rewrite <- ?app_assoc; cbn [app]. rewrite H3. cbv beta match.
  rewrite <- ?app_assoc; cbn [app]. rewrite H4. cbv beta match.
  change (is_class "NoSuchEntityException"
            (ClientError "NoSuchEntityException")) with true.
  cbv beta match. rewrite <- ?app_assoc; cbn [app]. rewrite H5.
  cbv beta match. rewrite <- ?app_assoc; cbn [app]. rewrite H6.
  cbv beta match. rewrite <- ?app_assoc; cbn [app]. by rewrite H7.
Qed.

(** The onboarding of [dev@acme.com] where no group exists yet. *)
Lemma identity_stage_creates_missing_group_witness :
  snd (run (OnboardDeveloper._create_iam_user Fixtures.single "dev@acme.com"
              "engineering" "sandbox")
         (Fixtures.at_time Fixtures.morning Fixtures.missing_groups) [])
  = [] ++
    [iam_create_user "bcce-dev-acme-com"
       [("Email", "dev@acme.com"); ("Department", "engineering");
        ("AccessTier", "sandbox"); ("CreatedBy", "BCCE-Onboarding");
        ("Purpose", "BCCE-Developer-Access")];
     iam_create_access_key "bcce-dev-acme-com";
     iam_attach_user_policy "bcce-dev-acme-com"
       (OnboardDeveloper._get_policy_arn_for_tier Fixtures.single "sandbox");
     iam_add_user_to_group "BCCE-Engineering-Sandbox" "bcce-dev-acme-com";
     iam_create_group "BCCE-Engineering-Sandbox";
     iam_attach_group_policy "BCCE-Engineering-Sandbox"
       (OnboardDeveloper._get_policy_arn_for_tier Fixtures.single "sandbox");
     iam_add_user_to_group "BCCE-Engineering-Sandbox" "bcce-dev-acme-com"].
Proof.
  refine (f_equal snd
    (identity_stage_creates_missing_group Fixtures.single "dev@acme.com"
       "engineering" "sandbox"
       (Fixtures.at_time Fixtures.morning Fixtures.missing_groups) []
       "arn:aws:iam::123456789012:user/bcce-dev-acme-com"
       {| AccessKeyId := "AKIAEXAMPLE";
          SecretAccessKey := "wJalrEXAMPLEKEY" |} _ _ _ _ _ _ _ _ _));
    first [compute_done | vm_compute; reflexivity].
Defined.

(** X4.  For a department and a tier written in ASCII (where [title] is
    [str.title()]): any other refusal to add the user to the group ends the
    identity stage on that refusal: no group is created, and the user, the
    access key and the attachment stay as they are. *)
Theorem identity_stage_stops_on_group_error
    (self : OnboardDeveloper.BCCEDeveloperOnboarder)
    (email department access_tier : string) (w : world) (h : list call)
    (arn : string) (key : access_key) (name : string) :
  let username := "bcce-" +:+ replace_at_dot email in
  let group := "BCCE-" +:+ title department +:+ "-" +:+ title access_tier in
  let policy := OnboardDeveloper._get_policy_arn_for_tier self access_tier in
  let create :=
    iam_create_user username
      [("Email", email); ("Department", department);
       ("AccessTier", access_tier); ("CreatedBy", "BCCE-Onboarding");
       ("Purpose", "BCCE-Developer-Access")] in
  let create_key := iam_create_access_key username in
  let attach := iam_attach_user_policy username policy in
  let add := iam_add_user_to_group group username in
  Forall (fun c => (nat_of_ascii c < 128)%nat)
    (list_ascii_of_string department) ->
  Forall (fun c => (nat_of_ascii c < 128)%nat)
    (list_ascii_of_string access_tier) ->
  service w h create = returns arn ->
  service w (h ++ [create]) create_key = returns key ->
  service w (h ++ [create; create_key]) attach = returns tt ->
  service w (h ++ [create; create_key; attach]) add = raises name ->
  name ≠ "NoSuchEntityException" ->
  run (OnboardDeveloper._create_iam_user self email department access_tier)
    w h
  = (Raise (ClientError name), h ++ [create; create_key; attach; add]).
Proof.
  intros username group policy create create_key attach add _ _ H1 H2 H3 H4
    Hne.
  unfold OnboardDeveloper._create_iam_user,
    OnboardDeveloper._create_developer_group.
  fold username group policy create create_key attach add.
  unfold_run. rewrite H1. cbv beta match. rewrite H2. cbv beta match.
  rewrite <- ?app_assoc; cbn [app]. rewrite H3. cbv beta match.
  rewrite <- ?app_assoc; cbn [app]. rewrite H4. cbv beta match.
  unfold is_class. by rewrite (proj2 (String.eqb_neq _ _) Hne).
Qed.

(** Where the groups may not be changed, the stage ends on the refusal. *)
Lemma identity_stage_stops_on_group_error_witness :
  run (OnboardDeveloper._create_iam_user Fixtures.single "dev@acme.com"
         "engineering" "sandbox")
      (Fixtures.at_time Fixtures.morning Fixtures.groups_denied) []
  = (Raise (ClientError "AccessDeniedException"),
     [] ++
     [iam_create_user "bcce-dev-acme-com"
        [("Email", "dev@acme.com"); ("Department", "engineering");
         ("AccessTier", "sandbox"); ("CreatedBy", "BCCE-Onboarding");
         ("Purpose", "BCCE-Developer-Access")];
      iam_create_access_key "bcce-dev-acme-com";
      iam_attach_user_policy "bcce-dev-acme-com"
        (OnboardDeveloper._get_policy_arn_for_tier Fixtures.single "sandbox");
      iam_add_user_to_group "BCCE-Engineering-Sandbox" "bcce-dev-acme-com"]).
Proof.
  refine (identity_stage_stops_on_group_error Fixtures.single "dev@acme.com"
            "engineering" "sandbox"
            (Fixtures.at_time Fixtures.morning Fixtures.groups_denied) []
            "arn:aws:iam::123456789012:user/bcce-dev-acme-com"
            {| AccessKeyId := "AKIAEXAMPLE";
               SecretAccessKey := "wJalrEXAMPLEKEY" |}
            "AccessDeniedException" _ _ _ _ _ _ _);
    first [compute_done | vm_compute; reflexivity | discriminate].
Defined.

(** ** The resource stage of [onboard-developer.py] *)

(** X5.  Unlike the bucket, the key is not optional: when its creation is
    refused the resource stage raises that refusal, whatever happened to
    the bucket, and an onboarding that got that far ends on it. *)
Theorem key_failure_ends_the_onboarding
    (self : OnboardDeveloper.BCCEDeveloperOnboarder)
    (email department access_tier : string) (w : world) (h : list call)
    (name : string) :
  let bucket_name :=
    "bcce-" +:+ replace_at_dot email +:+ "-"
    +:+ String.substring 0 8 (OnboardDeveloper.account_id self) in
  let bucket :=
    run (OnboardDeveloper.create_bucket self email bucket_name) w h in
  let create_key :=
    kms_create_key ("BCCE encryption key for " +:+ email) "ENCRYPT_DECRYPT"
      [("Owner", email); ("Department", department);
       ("Purpose", "BCCE-Developer-Encryption")] in
  service w (snd bucket) create_key = raises name ->
  run (OnboardDeveloper._provision_developer_resources self email department
         access_tier) w h
  = (Raise (ClientError name), snd bucket ++ [create_key])
  ∧ forall manager_email use_case h0 h1 info,
      run (OnboardDeveloper._validate_onboarding_request self email
             department access_tier) w h0 = (Return tt, h1) ->
      run (OnboardDeveloper._create_iam_user self email department
             access_tier) w h1 = (Return info, h) ->
      run (OnboardDeveloper.onboard_developer self email department
             access_tier manager_email use_case) w h0
      = (Raise (ClientError name), snd bucket ++ [create_key]).
Proof.
  intros bucket_name bucket create_key Hkey.
  assert (run (OnboardDeveloper._provision_developer_resources self email
                 department access_tier) w h
          = (Raise (ClientError name), snd bucket ++ [create_key])) as E.
  { rewrite single_resource_stage. fold bucket_name bucket.
    unfold OnboardDeveloper.provision_key_and_logs. fold create_key.
    unfold_run. by rewrite Hkey. }
  split; [exact E|].
  intros manager_email use_case h0 h1 info Hvalidate Hidentity.
  unfold OnboardDeveloper.onboard_developer.
  rewrite run_try_reraise, (run_bind_Return _ _ _ _ _ _ Hvalidate),
    (run_bind_Return _ _ _ _ _ _ Hidentity).
  by apply run_bind_Raise.
Qed.

(** On an account that cannot create keys the resource stage raises, the
    bucket being there. *)
Lemma key_failure_witness :
  run (OnboardDeveloper._provision_developer_resources Fixtures.single
         "dev@acme.com" "engineering" "sandbox")
      (Fixtures.at_time Fixtures.morning Fixtures.no_key) []
  = (Raise (ClientError "LimitExceededException"),
     snd (run (OnboardDeveloper.create_bucket Fixtures.single "dev@acme.com"
                 "bcce-dev-acme-com-12345678")
            (Fixtures.at_time Fixtures.morning Fixtures.no_key) [])
     ++ [kms_create_key "BCCE encryption key for dev@acme.com"
           "ENCRYPT_DECRYPT"
           [("Owner", "dev@acme.com"); ("Department", "engineering");
            ("Purpose", "BCCE-Developer-Encryption")]]).
Proof.
  refine (proj1 (key_failure_ends_the_onboarding Fixtures.single
            "dev@acme.com" "engineering" "sandbox"
            (Fixtures.at_time Fixtures.morning Fixtures.no_key) []
            "LimitExceededException" _)).
  vm_compute. reflexivity.
Defined.

(** The three calls of [create_bucket], one after the other. *)
Lemma run_create_bucket self email bucket_name w h :
  let create := s3_create_bucket bucket_name "us-west-2" in
  let version := s3_put_bucket_versioning bucket_name "Enabled" in
  let allow :=
    s3_put_bucket_policy bucket_name
      {| Sid := "DeveloperAccess";
         Effect := "Allow";
         Principal_AWS := "arn:aws:iam::" +:+ OnboardDeveloper.account_id self
                          +:+ ":user/bcce-" +:+ replace_at_dot email;
         Action := ["s3:GetObject"; "s3:PutObject"; "s3:DeleteObject";
                    "s3:ListBucket"];
         Resource := ["arn:aws:s3:::" +:+ bucket_name;
                      "arn:aws:s3:::" +:+ bucket_name +:+ "/*"] |} in
  run (OnboardDeveloper.create_bucket self email bucket_name) w h
  = match service w h create with
    | raises name => (Raise (ClientError name), h ++ [create])
    | returns _ =>
        match service w (h ++ [create]) version with
        | raises name => (Raise (ClientError name), h ++ [create; version])
        | returns _ =>
            (match service w (h ++ [create; version]) allow with
             | raises name => Raise (ClientError name)
             | returns _ => Return tt
             end, h ++ [create; version; allow])
        end
    end.
Proof.
  intros create version allow. unfold OnboardDeveloper.create_bucket.
  fold create version allow. unfold_run.
  destruct (service w h create) as [[]|]; [|done].
  rewrite <- !app_assoc. cbn [app].
  destruct (service w (h ++ [create]) version) as [[]|]; [|done].
  by destruct (service w (h ++ [create; version]) allow) as [[]|].
Qed.

(** X6.  The resource stage reports the bucket only when it is complete:
    the name is returned exactly when the bucket was created, versioned and
    given its policy; a bucket that was created and then could not be
    versioned or given its policy exists but is reported as [None]. *)
Theorem bucket_is_reported_only_when_complete
    (self : OnboardDeveloper.BCCEDeveloperOnboarder)
    (email department access_tier : string) (w : world) (h : list call)
    (resources : OnboardDeveloper.Resources) (h' : list call) :
  let bucket_name :=
    "bcce-" +:+ replace_at_dot email +:+ "-"
    +:+ String.substring 0 8 (OnboardDeveloper.account_id self) in
  let create := s3_create_bucket bucket_name "us-west-2" in
  let version := s3_put_bucket_versioning bucket_name "Enabled" in
  let allow :=
    s3_put_bucket_policy bucket_name
      {| Sid := "DeveloperAccess";
         Effect := "Allow";
         Principal_AWS := "arn:aws:iam::" +:+ OnboardDeveloper.account_id self
                          +:+ ":user/bcce-" +:+ replace_at_dot email;
         Action := ["s3:GetObject"; "s3:PutObject"; "s3:DeleteObject";
                    "s3:ListBucket"];
         Resource := ["arn:aws:s3:::" +:+ bucket_name;
                      "arn:aws:s3:::" +:+ bucket_name +:+ "/*"] |} in
  run (OnboardDeveloper._provision_developer_resources self email department
         access_tier) w h = (Return resources, h') ->
  (OnboardDeveloper.s3_bucket resources = Some bucket_name
   ∨ OnboardDeveloper.s3_bucket resources = None)
  ∧ (OnboardDeveloper.s3_bucket resources = Some bucket_name
     <-> service w h create = returns tt
         ∧ service w (h ++ [create]) version = returns tt
         ∧ service w (h ++ [create; version]) allow = returns tt).
Proof.
  intros bucket_name create version allow.
  rewrite single_resource_stage. fold bucket_name.
  rewrite run_create_bucket. fold create version allow.
  unfold OnboardDeveloper.provision_key_and_logs. unfold_run.
  destruct (service w h create) as [[]|n1] eqn:E1; cbn [fst snd is_Return];
    [destruct (service w (h ++ [create]) version) as [[]|n2] eqn:E2;
     cbn [fst snd is_Return];
     [destruct (service w (h ++ [create; version]) allow) as [[]|n3] eqn:E3;
      cbn [fst snd is_Return]|]|];
    intros H; all_cases_in H; inversion H; subst; cbn;
    (split; [auto|]); split; try done; intros (? & ? & ?); done.
Qed.

(** A bucket that cannot be versioned is created and reported as [None]. *)
Lemma bucket_is_reported_only_when_complete_witness :
  service (Fixtures.at_time Fixtures.morning Fixtures.no_versioning) []
    (s3_create_bucket "bcce-dev-acme-com-12345678" "us-west-2") = returns tt
  ∧ result_map OnboardDeveloper.s3_bucket
      (fst (run (OnboardDeveloper._provision_developer_resources
                   Fixtures.single "dev@acme.com" "engineering" "sandbox")
              (Fixtures.at_time Fixtures.morning Fixtures.no_versioning) []))
    = Return None.
Proof.
  split; [reflexivity|].
  destruct (run (OnboardDeveloper._provision_developer_resources
                   Fixtures.single "dev@acme.com" "engineering" "sandbox")
              (Fixtures.at_time Fixtures.morning Fixtures.no_versioning) [])
    as [[resources|e] h'] eqn:E; [|vm_compute in E; discriminate E].
  destruct (bucket_is_reported_only_when_complete Fixtures.single
              "dev@acme.com" "engineering" "sandbox" _ _ _ _ E)
    as [[Hsome|Hnone] Hiff].
  - apply Hiff in Hsome as (_ & Hversion & _).
    vm_compute in Hversion. discriminate Hversion.
  - cbn. by rewrite Hnone.
Defined.

(** ** Emails and the configuration files of [onboard-developer.py] *)

Lemma split_without (sep : ascii) (s : string) :
  sep ∉ list_ascii_of_string s -> split sep s = [s].
Proof.
  induction s as [|c s IH]; [reflexivity|]. cbn.
  intros [Hne Hrest]%not_elem_of_cons.
  destruct (Ascii.eqb_spec c sep) as [->|_]; [done|]. by rewrite IH.
Qed.

(** The first piece of [a + b], for an [a] without separator, is [a]
    followed by the first piece of [b]. *)
Lemma split_app (sep : ascii) (a b : string) :
  sep ∉ list_ascii_of_string a ->
  exists piece pieces,
    split sep b = piece :: pieces
    ∧ split sep (a +:+ b) = (a +:+ piece) :: pieces.
Proof.
  induction a as [|c a IH].
  - intros _. destruct (split_at_first sep b) as [piece Hpiece].
    change ("" +:+ b) with b.
    destruct (split sep b) as [|piece' pieces]; [done|].
    by exists piece', pieces.
  - intros [Hne Hrest]%not_elem_of_cons.
    destruct (IH Hrest) as (piece & pieces & Hb & Hab).
    exists piece, pieces. split; [done|].
    change (String c a +:+ b) with (String c (a +:+ b)).
    change (String c a +:+ piece) with (String c (a +:+ piece)).
    cbn [split]. destruct (Ascii.eqb_spec c sep) as [->|_]; [done|].
    by rewrite Hab.
Qed.

Lemma append_nil_r (a : string) : a +:+ "" = a.
Proof.
  induction a as [|c a IH]; [reflexivity|].
  change (String c a +:+ "") with (String c (a +:+ "")). by rewrite IH.
Qed.

(** [a] without separator, then the separator: [a] is the first piece. *)
Lemma split_at_separator (sep : ascii) (a b : string) :
  sep ∉ list_ascii_of_string a ->
  split sep (a +:+ String sep b) = a :: split sep b.
Proof.
  intros Ha. destruct (split_app sep a (String sep b) Ha)
    as (piece & pieces & Hb & ->).
  cbn [split] in Hb. rewrite Ascii.eqb_refl in Hb. injection Hb as <- <-.
  by rewrite append_nil_r.
Qed.

Lemma no_at_no_files self email user_info resources access_tier w h :
  "@"%char ∉ list_ascii_of_string email ->
  run (OnboardDeveloper._generate_config_files self email user_info
         resources access_tier) w h = (Raise IndexError, h).
Proof.
  intros Hat.
  unfold OnboardDeveloper._generate_config_files, OnboardDeveloper.getitem.
  by rewrite (split_without _ _ Hat).
Qed.

Lemma no_at_no_result self email department access_tier manager_email
    use_case w h :
  "@"%char ∉ list_ascii_of_string email ->
  is_Return
    (fst (run (OnboardDeveloper.onboard_developer self email department
                 access_tier manager_email use_case) w h)) = false.
Proof.
  intros Hat. unfold OnboardDeveloper.onboard_developer.
  rewrite run_try_reraise.
  apply never_returns_bind_r; intros [] h1.
  apply never_returns_bind_r; intros info h2.
  apply never_returns_bind_r; intros resources h3.
  apply never_returns_bind_r; intros budget_info h4.
  apply never_returns_bind_l. by rewrite no_at_no_files.
Qed.

(** X7.  For an email without [@] the configuration files cannot be
    generated: the stage raises [IndexError] before it reads the clock, an
    onboarding never returns, and one whose earlier stages succeeded raises
    only after the user, the resources and the budget have been asked
    for. *)
Theorem email_without_at_never_onboards
    (self : OnboardDeveloper.BCCEDeveloperOnboarder)
    (email department access_tier manager_email use_case : string) :
  "@"%char ∉ list_ascii_of_string email ->
  (forall user_info resources w h,
     run (OnboardDeveloper._generate_config_files self email user_info
            resources access_tier) w h = (Raise IndexError, h))
  ∧ (forall w h,
       is_Return
         (fst (run (OnboardDeveloper.onboard_developer self email department
                      access_tier manager_email use_case) w h)) = false)
  ∧ (forall w h0 h1 info h2 resources h3,
       run (OnboardDeveloper._validate_onboarding_request self email
              department access_tier) w h0 = (Return tt, h1) ->
       run (OnboardDeveloper._create_iam_user self email department
              access_tier) w h1 = (Return info, h2) ->
       run (OnboardDeveloper._provision_developer_resources self email
              department access_tier) w h2 = (Return resources, h3) ->
       run (OnboardDeveloper.onboard_developer self email department
              access_tier manager_email use_case) w h0
       = (Raise IndexError,
          h3 ++ [budgets_create_budget (OnboardDeveloper.account_id self)
                   (OnboardDeveloper.budget email access_tier)
                   (OnboardDeveloper.notifications self email department)])).
Proof.
  intros Hat. split; [|split].
  - intros. by apply no_at_no_files.
  - intros. by apply no_at_no_result.
  - intros w h0 h1 info h2 resources h3 Hvalidate Hidentity Hresources.
    unfold OnboardDeveloper.onboard_developer.
    rewrite run_try_reraise, (run_bind_Return _ _ _ _ _ _ Hvalidate),
      (run_bind_Return _ _ _ _ _ _ Hidentity),
      (run_bind_Return _ _ _ _ _ _ Hresources).
    rewrite run_bind, single_budget_stage. cbv beta match zeta.
    by apply run_bind_Raise, no_at_no_files.
Qed.

(** The email [dev] on a fresh account: everything is provisioned, then the
    onboarding raises. *)
Lemma email_without_at_witness :
  is_Return
    (fst (run (OnboardDeveloper.onboard_developer Fixtures.single "dev"
                 "engineering" "sandbox" "cto@acme.com" "evaluation")
            (Fixtures.at_time Fixtures.morning Fixtures.fresh_account) []))
  = false.
Proof.
  refine (proj1 (proj2 (email_without_at_never_onboards Fixtures.single
            "dev" "engineering" "sandbox" "cto@acme.com" "evaluation" _))
            (Fixtures.at_time Fixtures.morning Fixtures.fresh_account) []).
  compute_done.
Defined.

(** X8.  The department written into the configuration object is the first
    label of the domain of the email, not the department of the request:
    for [local@label.rest] it is [label]. *)
Theorem config_department_is_first_label
    (self : OnboardDeveloper.BCCEDeveloperOnboarder)
    (local label rest : string) (user_info : OnboardDeveloper.UserInfo)
    (resources : OnboardDeveloper.Resources) (access_tier : string)
    (w : world) (h : list call) :
  "@"%char ∉ list_ascii_of_string local ->
  "@"%char ∉ list_ascii_of_string label ->
  "."%char ∉ list_ascii_of_string label ->
  exists files,
    run (OnboardDeveloper._generate_config_files self
           (local +:+ "@" +:+ label +:+ "." +:+ rest) user_info resources
           access_tier) w h
    = (Return files, h ++ [datetime_utcnow])
    ∧ OnboardDeveloper.bcce_department (OnboardDeveloper.bcce_config files)
      = label.
Proof.
  intros Hlocal Hat Hdot.
  unfold OnboardDeveloper._generate_config_files, OnboardDeveloper.getitem.
  change ("@" +:+ label +:+ "." +:+ rest)
    with (String "@"%char (label +:+ String "."%char rest)).
  rewrite (split_at_separator "@" local _ Hlocal).
  destruct (split_app "@" label (String "."%char rest) Hat)
    as (piece & pieces & Hpiece & ->).
  cbn [split] in Hpiece. change (Ascii.eqb "." "@") with false in Hpiece.
  cbv beta match in Hpiece.
  assert (exists tail, piece = String "."%char tail) as [tail ->].
  { destruct (split "@" rest); injection Hpiece as <- <-; eauto. }
  cbn [lookup list_lookup]. unfold_run. cbv beta match.
  rewrite (split_at_separator "." label tail Hdot).
  cbn [lookup list_lookup]. cbv beta match. eauto.
Qed.

(** For [dev@acme.com] in [engineering] the configuration says [acme]. *)
Lemma config_department_witness :
  exists files,
    run (OnboardDeveloper._generate_config_files Fixtures.single
           ("dev" +:+ "@" +:+ "acme" +:+ "." +:+ "com") Fixtures.user_info
           Fixtures.resources "sandbox")
        (Fixtures.at_time Fixtures.morning Fixtures.fresh_account) []
    = (Return files, [] ++ [datetime_utcnow])
    ∧ OnboardDeveloper.bcce_department (OnboardDeveloper.bcce_config files)
      = "acme".
Proof.
  apply (config_department_is_first_label Fixtures.single "dev" "acme" "com");
    compute_done.
Defined.

(** X9.  Without [@] in the email a real run of [main] never ends with
    status 0, whatever the configuration and the services answer. *)
Theorem real_run_needs_an_at (args : OnboardDeveloper.Namespace)
    (w : world) (h : list call) :
  "@"%char ∉ list_ascii_of_string (OnboardDeveloper.arg_email args) ->
  OnboardDeveloper.arg_dry_run args = false ->
  fst (OnboardDeveloper.main args w h) ≠ 0%Z.
Proof.
  intros Hat Hreal. unfold OnboardDeveloper.main. rewrite Hreal.
  destruct (negb _); [done|]. destruct (files w _) as [config|]; [|done].
  destruct (run (OnboardDeveloper.__init__ config) w h)
    as [[onboarder|e] h1]; [|done].
  pose proof (no_at_no_result onboarder _
                (OnboardDeveloper.arg_department args)
                (OnboardDeveloper.arg_access_tier args)
                (OnboardDeveloper.arg_manager_email args)
                (OnboardDeveloper.arg_use_case args) w h1 Hat) as Hnever.
  by destruct (run (OnboardDeveloper.onboard_developer _ _ _ _ _ _) w h1)
    as [[result|e] h2].
Qed.

(** The dry run for [dev] ends with status 0, the real run with status 1. *)
Lemma real_run_needs_an_at_witness :
  fst (OnboardDeveloper.main
         {| OnboardDeveloper.arg_email := "dev";
            OnboardDeveloper.arg_department := "engineering";
            OnboardDeveloper.arg_access_tier := "sandbox";
            OnboardDeveloper.arg_manager_email := "cto@acme.com";
            OnboardDeveloper.arg_use_case := "evaluation";
            OnboardDeveloper.arg_config := "organization-config.yaml";
            OnboardDeveloper.arg_dry_run := true |}
         (Fixtures.at_time Fixtures.morning Fixtures.fresh_account) []) = 0%Z
  ∧ fst (OnboardDeveloper.main
           {| OnboardDeveloper.arg_email := "dev";
              OnboardDeveloper.arg_department := "engineering";
              OnboardDeveloper.arg_access_tier := "sandbox";
              OnboardDeveloper.arg_manager_email := "cto@acme.com";
              OnboardDeveloper.arg_use_case := "evaluation";
              OnboardDeveloper.arg_config := "organization-config.yaml";
              OnboardDeveloper.arg_dry_run := false |}
           (Fixtures.at_time Fixtures.morning Fixtures.fresh_account) [])
    ≠ 0%Z.
Proof.
  split; [reflexivity|].
  apply real_run_needs_an_at; [compute_done | reflexivity].
Defined.

(** ** The onboarder of [unified-onboarding-enhanced.py] *)

(** X10.  A unified onboarder exists only with a user pool: the constructor
    asks for the identity of the caller first, then raises if the
    configuration names no pool or an empty one; an onboarder it returns
    has the non-empty pool id of the configuration. *)
Theorem unified_onboarder_has_a_pool (config : Config.t) (w : world)
    (h : list call) :
  let pool := Config.authentication_ config ≫= Config.user_pool_id in
  (forall self h',
     run (UnifiedOnboarding.__init__ config) w h = (Return self, h') ->
     pool = Some (UnifiedOnboarding.user_pool_id self)
     ∧ UnifiedOnboarding.user_pool_id self ≠ ""
     ∧ UnifiedOnboarding.config self = config
     ∧ h' = h ++ [sts_get_caller_identity])
  ∧ (forall account,
       (pool = None ∨ pool = Some "") ->
       service w h sts_get_caller_identity = returns account ->
       run (UnifiedOnboarding.__init__ config) w h
       = (Raise (ValueError user_pool_id_not_found),
          h ++ [sts_get_caller_identity])).
Proof.
  intros pool. unfold UnifiedOnboarding.__init__. fold pool. split.
  - intros self h'. unfold_run.
    destruct (service w h sts_get_caller_identity) as [account|]; [|done].
    cbv beta match. destruct pool as [id|]; [|done].
    cbn [truthy negb]. destruct (String.eqb_spec id "") as [->|Hne]; [done|].
    cbn. intros [= <- <-]. done.
  - intros account Hpool Haccount. unfold_run. rewrite Haccount.
    by destruct Hpool as [-> | ->].
Qed.

(** With an empty pool id in the configuration no onboarder is built. *)
Lemma unified_onboarder_witness :
  run (UnifiedOnboarding.__init__ Fixtures.no_pool)
      (Fixtures.at_time Fixtures.morning Fixtures.fresh_account) []
  = (Raise (ValueError user_pool_id_not_found),
     [] ++ [sts_get_caller_identity]).
Proof.
  refine (proj2 (unified_onboarder_has_a_pool Fixtures.no_pool
            (Fixtures.at_time Fixtures.morning Fixtures.fresh_account) [])
            "123456789012" _ _).
  - right. reflexivity.
  - reflexivity.
Defined.

(** ** The stages of [unified-onboarding-enhanced.py] *)

(** X11.  Every user the unified onboarding creates, whatever the request,
    gets the same temporary password: each call that creates a user asks
    for the welcome message, the password [TempPass123!] and no alias. *)
Theorem every_user_gets_the_same_password
    (self : UnifiedOnboarding.UnifiedBCCEOnboarder)
    (email department access_tier manager_email use_case idp_provider
       : string) :
  calls_only
    (fun c =>
       match c with
       | cognito_admin_create_user _ _ _ MessageAction TemporaryPassword
           ForceAliasCreation =>
           MessageAction = "WELCOME" ∧ TemporaryPassword = "TempPass123!"
           ∧ ForceAliasCreation = false
       | _ => True
       end)
    (UnifiedOnboarding.onboard_developer_unified self email department
       access_tier manager_email use_case idp_provider).
Proof.
  unfold UnifiedOnboarding.onboard_developer_unified,
    UnifiedOnboarding._validate_unified_request,
    UnifiedOnboarding._create_cognito_user_enhanced,
    UnifiedOnboarding._assign_department_group,
    UnifiedOnboarding._setup_governance_resources,
    UnifiedOnboarding._setup_individual_budget,
    UnifiedOnboarding._setup_analytics_tracking,
    UnifiedOnboarding._generate_unified_config,
    UnifiedOnboarding.individual_budget_limit,
    UnifiedOnboarding._send_unified_welcome,
    UnifiedOnboarding._log_unified_onboarding_event.
  calls_only.
Qed.

(** The analytics stage: one object, when there is a bucket for it. *)
Lemma unified_analytics_stage self email department access_tier w h :
  let document :=
    {| analytics_user_email := email;
       analytics_department := department;
       analytics_access_tier := access_tier;
       tracking_enabled := true;
       metrics_namespace :=
         "BCCE/" +:+ UnifiedOnboarding.organization_name self "Organization";
       analytics_bucket_name := UnifiedOnboarding.analytics_bucket self;
       retention_days :=
         if String.eqb access_tier "production" then 365%Z else 90%Z |} in
  let store :=
    s3_put_object (default "" (UnifiedOnboarding.analytics_bucket self))
      ("configs/users/" +:+ replace_at_dot email +:+ "/analytics-config.json")
      (analytics_json document) (UnifiedOnboarding.kms_key_id self)
      (Some ("BCCEUser=" +:+ email +:+ "&Department=" +:+ department
             +:+ "&AccessTier=" +:+ access_tier)) in
  run (UnifiedOnboarding._setup_analytics_tracking self email department
         access_tier) w h
  = (Return document,
     h ++ if truthy (UnifiedOnboarding.analytics_bucket self) then [store]
          else []).
Proof.
  intros document store. unfold UnifiedOnboarding._setup_analytics_tracking.
  fold document store. unfold_run.
  destruct (truthy (UnifiedOnboarding.analytics_bucket self)).
  - by destruct (service w h store) as [[]|].
  - by rewrite app_nil_r.
Qed.

(** The governance stage, call by call. *)
Lemma unified_governance_stage
    (self : UnifiedOnboarding.UnifiedBCCEOnboarder)
    (email department access_tier : string) (w : world) (h : list call) :
  let create_budget :=
    budgets_create_budget (UnifiedOnboarding.account_id self)
      (UnifiedOnboarding.budget email access_tier)
      (UnifiedOnboarding.notifications email) in
  exists resources,
    let store :=
      s3_put_object (default "" (UnifiedOnboarding.analytics_bucket self))
        ("configs/users/" +:+ replace_at_dot email
         +:+ "/analytics-config.json")
        (analytics_json
           (UnifiedOnboarding.resources_analytics_config resources))
        (UnifiedOnboarding.kms_key_id self)
        (Some ("BCCEUser=" +:+ email +:+ "&Department=" +:+ department
               +:+ "&AccessTier=" +:+ access_tier)) in
    run (UnifiedOnboarding._setup_governance_resources self email department
           access_tier) w h
    = (Return resources,
       h ++ create_budget
            :: if truthy (UnifiedOnboarding.analytics_bucket self)
               then [store] else [])
    ∧ UnifiedOnboarding.resources_analytics_bucket resources
      = UnifiedOnboarding.analytics_bucket self
    ∧ UnifiedOnboarding.resources_kms_key_id resources
      = UnifiedOnboarding.kms_key_id self
    ∧ UnifiedOnboarding.budget_name
        (UnifiedOnboarding.individual_budget resources)
      = match service w h create_budget with
        | returns _ => Some ("BCCE-Individual-" +:+ replace_at_dot email)
        | raises _ => None
        end.
Proof.
  intros create_budget.
  unfold UnifiedOnboarding._setup_governance_resources.
  rewrite run_bind, unified_budget_stage. fold create_budget.
  cbv beta match. rewrite run_bind, unified_analytics_stage.
  cbv beta match zeta. rewrite run_ret, <- app_assoc. cbn [app].
  match goal with
  | |- exists r, (Return ?x, _) = _ ∧ _ => exists x
  end.
  cbn. split; [done|]. split; [done|]. split; [done|].
  by destruct (service w h create_budget).
Qed.

(** X12.  The governance stage never raises.  It asks for the budget, then
    stores the analytics document if an analytics bucket is configured (and
    nothing if the bucket is absent or empty); a refusal of either request
    changes neither the calls made nor the fact that the stage returns. *)
Theorem governance_stage_always_returns
    (self : UnifiedOnboarding.UnifiedBCCEOnboarder)
    (email department access_tier : string) (w : world) (h : list call) :
  let create_budget :=
    budgets_create_budget (UnifiedOnboarding.account_id self)
      (UnifiedOnboarding.budget email access_tier)
      (UnifiedOnboarding.notifications email) in
  exists resources,
    let store :=
      s3_put_object (default "" (UnifiedOnboarding.analytics_bucket self))
        ("configs/users/" +:+ replace_at_dot email
         +:+ "/analytics-config.json")
        (analytics_json
           (UnifiedOnboarding.resources_analytics_config resources))
        (UnifiedOnboarding.kms_key_id self)
        (Some ("BCCEUser=" +:+ email +:+ "&Department=" +:+ department
               +:+ "&AccessTier=" +:+ access_tier)) in
    run (UnifiedOnboarding._setup_governance_resources self email department
           access_tier) w h
    = (Return resources,
       h ++ create_budget
            :: if truthy (UnifiedOnboarding.analytics_bucket self)
               then [store] else [])
    ∧ UnifiedOnboarding.resources_analytics_bucket resources
      = UnifiedOnboarding.analytics_bucket self
    ∧ UnifiedOnboarding.resources_kms_key_id resources
      = UnifiedOnboarding.kms_key_id self
    ∧ UnifiedOnboarding.budget_name
        (UnifiedOnboarding.individual_budget resources)
      = match service w h create_budget with
        | returns _ => Some ("BCCE-Individual-" +:+ replace_at_dot email)
        | raises _ => None
        end.
Proof. apply unified_governance_stage. Qed.

(** X13.  The event of the onboarding is logged without ever raising: with
    no analytics bucket the stage only reads the clock; with one it reads
    the clock again and stores the event under the date and the derived
    name, a refusal of the store being ignored. *)
Theorem event_logging_always_returns
    (self : UnifiedOnboarding.UnifiedBCCEOnboarder)
    (email department access_tier use_case idp_provider : string)
    (w : world) (h : list call) :
  let event :=
    {| event_type := "unified_developer_onboarded";
       event_timestamp := isoformat (clock w h);
       event_developer_email := email;
       event_department := department;
       event_access_tier := access_tier;
       event_use_case := use_case;
       event_idp_provider := idp_provider;
       event_user_pool_id := UnifiedOnboarding.user_pool_id self;
       event_analytics_bucket := UnifiedOnboarding.analytics_bucket self;
       event_organization :=
         Config.organization_ (UnifiedOnboarding.config self) ≫= Config.name;
       event_onboarded_by := default "system" (environ w "USER") |} in
  let store :=
    s3_put_object (default "" (UnifiedOnboarding.analytics_bucket self))
      ("events/onboarding/"
       +:+ strftime_Ymd (clock w (h ++ [datetime_utcnow]))
       +:+ "/" +:+ replace_at_dot email +:+ ".json")
      (event_json event) (UnifiedOnboarding.kms_key_id self) None in
  run (UnifiedOnboarding._log_unified_onboarding_event self email department
         access_tier use_case idp_provider) w h
  = (Return tt,
     h ++ datetime_utcnow
          :: if truthy (UnifiedOnboarding.analytics_bucket self)
             then [datetime_utcnow; store] else []).
Proof.
  intros event store.
  unfold UnifiedOnboarding._log_unified_onboarding_event. unfold_run.
  fold event. destruct (truthy (UnifiedOnboarding.analytics_bucket self)).
  - rewrite <- !app_assoc. cbn [app]. fold store.
    by destruct (service w _ store) as [[]|].
  - reflexivity.
Qed.

(** ** Failures after the user was created, in the unified script *)

Lemma unified_files_need_the_budget self email user_info resources
    access_tier idp_provider w h :
  UnifiedOnboarding.budget_name (UnifiedOnboarding.individual_budget resources)
  = None ->
  run (UnifiedOnboarding._generate_unified_config self email user_info
         resources access_tier idp_provider) w h
  = (Raise (KeyError "budget_limit"), h ++ [datetime_utcnow]).
Proof.
  unfold UnifiedOnboarding._generate_unified_config,
    UnifiedOnboarding.individual_budget_limit.
  by destruct (UnifiedOnboarding.individual_budget resources).
Qed.

(** X14.  The configuration stage of the unified script needs the budget:
    with a budget that was not created it raises [KeyError] on
    [budget_limit], after the clock was read.  So a refusal of the budget,
    absorbed by the budget stage, still ends the onboarding: once the user
    is created and in the group, the onboarding raises that [KeyError]. *)
Theorem budget_refusal_ends_unified_onboarding
    (self : UnifiedOnboarding.UnifiedBCCEOnboarder)
    (email department access_tier manager_email use_case idp_provider
       : string) (w : world) :
  (forall user_info resources h,
     UnifiedOnboarding.budget_name
       (UnifiedOnboarding.individual_budget resources) = None ->
     run (UnifiedOnboarding._generate_unified_config self email user_info
            resources access_tier idp_provider) w h
     = (Raise (KeyError "budget_limit"), h ++ [datetime_utcnow]))
  ∧ (forall h0 h1 info h2 group h3 name,
       run (UnifiedOnboarding._validate_unified_request self email
              department access_tier) w h0 = (Return tt, h1) ->
       run (UnifiedOnboarding._create_cognito_user_enhanced self email
              department access_tier manager_email) w h1
       = (Return info, h2) ->
       run (UnifiedOnboarding._assign_department_group self email
              department) w h2 = (Return group, h3) ->
       service w h3
         (budgets_create_budget (UnifiedOnboarding.account_id self)
            (UnifiedOnboarding.budget email access_tier)
            (UnifiedOnboarding.notifications email)) = raises name ->
       fst (run (UnifiedOnboarding.onboard_developer_unified self email
                   department access_tier manager_email use_case
                   idp_provider) w h0)
       = Raise (KeyError "budget_limit")).
Proof.
  split.
  - intros. by apply unified_files_need_the_budget.
  - intros h0 h1 info h2 group h3 name Hvalidate Hidentity Hgroup Hbudget.
    unfold UnifiedOnboarding.onboard_developer_unified.
    rewrite run_try_reraise, (run_bind_Return _ _ _ _ _ _ Hvalidate),
      (run_bind_Return _ _ _ _ _ _ Hidentity),
      (run_bind_Return _ _ _ _ _ _ Hgroup).
    destruct (unified_governance_stage self email department
                access_tier w h3) as (resources & Hrun & _ & _ & Hname).
    cbv zeta in Hrun. rewrite Hbudget in Hname.
    rewrite (run_bind_Return _ _ _ _ _ _ Hrun). cbv zeta.
    by rewrite (run_bind_Raise _ _ _ _ _ _
                  (unified_files_need_the_budget _ _ _ _ _ _ _ _ Hname)).
Qed.

(** Where budgets are refused, the onboarding of [dev@acme.com] raises. *)
Lemma budget_refusal_witness :
  fst (run (UnifiedOnboarding.onboard_developer_unified Fixtures.unified
              "dev@acme.com" "engineering" "sandbox" "cto@acme.com"
              "evaluation" "cognito")
         (Fixtures.at_time Fixtures.morning Fixtures.no_bucket_no_budget) [])
  = Raise (KeyError "budget_limit").
Proof.
  eapply (proj2 (budget_refusal_ends_unified_onboarding Fixtures.unified
            "dev@acme.com" "engineering" "sandbox" "cto@acme.com"
            "evaluation" "cognito"
            (Fixtures.at_time Fixtures.morning
               Fixtures.no_bucket_no_budget)) []);
    vm_compute; reflexivity.
Defined.

(** X15.  The group of the department is not created by the unified
    script: when the user cannot be added to it, the onboarding raises that
    refusal right after the user was created, and calls nothing more. *)
Theorem group_refusal_ends_unified_onboarding
    (self : UnifiedOnboarding.UnifiedBCCEOnboarder)
    (email department access_tier manager_email use_case idp_provider
       : string) (w : world) (h0 h1 : list call)
    (info : UnifiedOnboarding.UserInfo) (h2 : list call) (name : string) :
  let add :=
    cognito_admin_add_user_to_group (UnifiedOnboarding.user_pool_id self)
      (replace_at_dot email) department in
  run (UnifiedOnboarding._validate_unified_request self email department
         access_tier) w h0 = (Return tt, h1) ->
  run (UnifiedOnboarding._create_cognito_user_enhanced self email department
         access_tier manager_email) w h1 = (Return info, h2) ->
  service w h2 add = raises name ->
  run (UnifiedOnboarding.onboard_developer_unified self email department
         access_tier manager_email use_case idp_provider) w h0
  = (Raise (ClientError name), h2 ++ [add]).
Proof.
  intros add Hvalidate Hidentity Hadd.
  unfold UnifiedOnboarding.onboard_developer_unified.
  rewrite run_try_reraise, (run_bind_Return _ _ _ _ _ _ Hvalidate),
    (run_bind_Return _ _ _ _ _ _ Hidentity).
  apply run_bind_Raise. unfold UnifiedOnboarding._assign_department_group.
  fold add. unfold_run. by rewrite Hadd.
Qed.

(** In a pool without department groups the onboarding stops there. *)
Lemma group_refusal_witness :
  run (UnifiedOnboarding.onboard_developer_unified Fixtures.unified
         "dev@acme.com" "engineering" "sandbox" "cto@acme.com" "evaluation"
         "cognito")
      (Fixtures.at_time Fixtures.morning Fixtures.no_department_group) []
  = (Raise (ClientError "ResourceNotFoundException"),
     snd (run (UnifiedOnboarding._validate_unified_request Fixtures.unified
                 "dev@acme.com" "engineering" "sandbox";;
               UnifiedOnboarding._create_cognito_user_enhanced
                 Fixtures.unified "dev@acme.com" "engineering" "sandbox"
                 "cto@acme.com")
            (Fixtures.at_time Fixtures.morning Fixtures.no_department_group)
            [])
     ++ [cognito_admin_add_user_to_group "us-east-1_EXAMPLE" "dev-acme-com"
           "engineering"]).
Proof.
  eapply (group_refusal_ends_unified_onboarding Fixtures.unified
            "dev@acme.com" "engineering" "sandbox" "cto@acme.com"
            "evaluation" "cognito"
            (Fixtures.at_time Fixtures.morning Fixtures.no_department_group)
            []);
    vm_compute; reflexivity.
Defined.

(** ** Lookups that fail *)

(** X16.  A lookup of the user that fails for another reason than the
    absence of the user ends the validation of [onboard-developer.py] on
    that failure, whereas the validation of the unified script passes
    whatever failure the lookup reports. *)
Theorem failed_lookups (email department access_tier : string) (w : world)
    (h : list call) (name : string) :
  (forall self : OnboardDeveloper.BCCEDeveloperOnboarder,
     let lookup := iam_get_user ("bcce-" +:+ replace_at_dot email) in
     is_Some (default ∅ (Config.departments (OnboardDeveloper.config self))
                !! department) ->
     access_tier ∈ ["sandbox"; "integration"; "production"] ->
     service w h lookup = raises name ->
     name ≠ "NoSuchEntityException" ->
     run (OnboardDeveloper._validate_onboarding_request self email department
            access_tier) w h = (Raise (ClientError name), h ++ [lookup]))
  ∧ (forall (self : UnifiedOnboarding.UnifiedBCCEOnboarder) d,
       let lookup :=
         cognito_admin_get_user (UnifiedOnboarding.user_pool_id self)
           (replace_at_dot email) in
       default ∅ (Config.departments (UnifiedOnboarding.config self))
         !! department = Some d ->
       access_tier ∈ default ["sandbox"] (Config.access_tiers d) ->
       service w h lookup = raises name ->
       run (UnifiedOnboarding._validate_unified_request self email department
              access_tier) w h = (Return tt, h ++ [lookup])).
Proof.
  split.
  - intros self lookup Hdepartment Htier Hlookup Hne.
    rewrite single_validation. fold lookup.
    rewrite !bool_decide_eq_true_2 by done. cbn [negb].
    by rewrite Hlookup, (proj2 (String.eqb_neq _ _) Hne).
  - intros self d lookup Hdepartment Htier _.
    rewrite unified_validation, Hdepartment.
    by rewrite bool_decide_eq_true_2.
Qed.

(** With lookups denied, the validation of the one script fails and the
    validation of the other passes. *)
Lemma failed_lookups_witness :
  run (OnboardDeveloper._validate_onboarding_request Fixtures.single
         "dev@acme.com" "engineering" "sandbox")
      (Fixtures.at_time Fixtures.morning Fixtures.lookups_denied) []
  = (Raise (ClientError "AccessDeniedException"),
     [] ++ [iam_get_user ("bcce-" +:+ replace_at_dot "dev@acme.com")])
  ∧ run (UnifiedOnboarding._validate_unified_request Fixtures.unified
           "dev@acme.com" "engineering" "sandbox")
        (Fixtures.at_time Fixtures.morning Fixtures.lookups_denied) []
    = (Return tt,
       [] ++ [cognito_admin_get_user "us-east-1_EXAMPLE"
                (replace_at_dot "dev@acme.com")]).
Proof.
  pose proof (failed_lookups "dev@acme.com" "engineering" "sandbox"
                (Fixtures.at_time Fixtures.morning Fixtures.lookups_denied)
                [] "AccessDeniedException") as [Hsingle Hunified].
  split.
  - apply Hsingle; [vm_compute; eauto | compute_done | reflexivity
                   | discriminate].
  - apply (Hunified Fixtures.unified Fixtures.engineering);
      [vm_compute; reflexivity | compute_done | reflexivity].
Defined.

(** ** The limits of the two scripts *)

(** X17.  The two scripts give every tier the same individual monthly
    limit, except [production]: 2000 in [onboard-developer.py], 1000 in
    the unified script. *)
Theorem limits_differ_on_production_only (access_tier : string) :
  (access_tier ≠ "production" ->
   OnboardDeveloper.budget_limit_for access_tier
   = UnifiedOnboarding.individual_limit_for access_tier)
  ∧ OnboardDeveloper.budget_limit_for "production" = 2000%Z
  ∧ UnifiedOnboarding.individual_limit_for "production" = 1000%Z.
Proof.
  split; [|split; reflexivity].
  intros Hne.
  unfold OnboardDeveloper.budget_limit_for, OnboardDeveloper.budget_limits,
    UnifiedOnboarding.individual_limit_for, UnifiedOnboarding.tier_limits.
  destruct (decide (access_tier = "sandbox")) as [->|?]; [reflexivity|].
  destruct (decide (access_tier = "integration")) as [->|?]; [reflexivity|].
  by simplify_map_eq.
Qed.

Lemma limits_witness :
  OnboardDeveloper.budget_limit_for "integration"
  = UnifiedOnboarding.individual_limit_for "integration".
Proof.
  apply (proj1 (limits_differ_on_production_only "integration")).
  discriminate.
Defined.

(** ** What a returned result guarantees *)

Ltac unfold_run_in H :=
  unfold run, mbind, M_bind, mret, M_ret, request, raise, raise_if,
    try_except, except_class, utcnow, getenv in H.

(** X18.  [onboard_developer] returns a result only for a request whose
    department is in the configuration, whose tier is one of the three and
    whose email has an [@].  The result repeats the request, names the
    user [bcce-] followed by the derived name, and reports as bucket either
    the derived bucket name or [None], the same value the configuration
    object carries. *)
Theorem single_result_invariant
    (self : OnboardDeveloper.BCCEDeveloperOnboarder)
    (email department access_tier manager_email use_case : string)
    (w : world) (h : list call) (result : OnboardDeveloper.OnboardingResult)
    (h' : list call) :
  run (OnboardDeveloper.onboard_developer self email department access_tier
         manager_email use_case) w h = (Return result, h') ->
  is_Some (default ∅ (Config.departments (OnboardDeveloper.config self))
             !! department)
  ∧ access_tier ∈ ["sandbox"; "integration"; "production"]
  ∧ "@"%char ∈ list_ascii_of_string email
  ∧ OnboardDeveloper.status result = "success"
  ∧ OnboardDeveloper.developer_email result = email
  ∧ OnboardDeveloper.department result = department
  ∧ OnboardDeveloper.access_tier result = access_tier
  ∧ OnboardDeveloper.username (OnboardDeveloper.user_info result)
    = "bcce-" +:+ replace_at_dot email
  ∧ (OnboardDeveloper.s3_bucket (OnboardDeveloper.resources result) = None
     ∨ OnboardDeveloper.s3_bucket (OnboardDeveloper.resources result)
       = Some ("bcce-" +:+ replace_at_dot email +:+ "-"
               +:+ String.substring 0 8 (OnboardDeveloper.account_id self)))
  ∧ OnboardDeveloper.bcce_s3_bucket
      (OnboardDeveloper.bcce_config (OnboardDeveloper.config_files result))
    = OnboardDeveloper.s3_bucket (OnboardDeveloper.resources result).
Proof.
  unfold OnboardDeveloper.onboard_developer. rewrite run_try_reraise.
  intros H.
  apply run_bind_inv in H as ([] & h1 & Hvalidate & H).
  apply run_bind_inv in H as (info & h2 & Hidentity & H).
  apply run_bind_inv in H as (resources & h3 & Hresources & H).
  apply run_bind_inv in H as (budget_info & h4 & _ & H).
  cbv zeta in H.
  apply run_bind_inv in H as (files & h5 & Hfiles & H).
  unfold OnboardDeveloper._send_welcome_email,
    OnboardDeveloper._log_onboarding_event in H.
  unfold_run_in H. injection H as <- _. cbn.
  rewrite single_validation in Hvalidate.
  destruct (bool_decide (is_Some _)) eqn:Hdepartment; [|done].
  destruct (bool_decide (access_tier ∈ _)) eqn:Htier; [|done].
  apply bool_decide_eq_true_1 in Hdepartment, Htier.
  split; [done|]. split; [done|]. split.
  { destruct (decide ("@"%char ∈ list_ascii_of_string email)) as [|Hno];
      [done|].
    by rewrite (no_at_no_files self email info resources access_tier w h4 Hno)
      in Hfiles. }
  do 4 (split; [done|]). split.
  { by eapply single_username. }
  split.
  - rewrite single_resource_stage in Hresources.
    unfold OnboardDeveloper.provision_key_and_logs in Hresources.
    unfold_run_in Hresources. all_cases_in Hresources.
    all: injection Hresources as <- _; cbn; auto.
  - unfold OnboardDeveloper._generate_config_files, OnboardDeveloper.getitem
      in Hfiles.
    unfold_run_in Hfiles.
    destruct (split "@" email !! 1) as [domain|]; [|done].
    cbv beta match in Hfiles.
    destruct (split "." domain !! 0); [|done].
    by injection Hfiles as <- _.
Qed.

(** The result for [dev@acme.com] on a fresh account. *)
Lemma single_result_witness :
  exists result,
    fst (run (OnboardDeveloper.onboard_developer Fixtures.single
                "dev@acme.com" "engineering" "sandbox" "cto@acme.com"
                "evaluation")
           (Fixtures.at_time Fixtures.morning Fixtures.fresh_account) [])
    = Return result
    ∧ OnboardDeveloper.username (OnboardDeveloper.user_info result)
      = "bcce-" +:+ replace_at_dot "dev@acme.com".
Proof.
  destruct (run (OnboardDeveloper.onboard_developer Fixtures.single
                   "dev@acme.com" "engineering" "sandbox" "cto@acme.com"
                   "evaluation")
              (Fixtures.at_time Fixtures.morning Fixtures.fresh_account) [])
    as [[result|e] h'] eqn:E; [|vm_compute in E; discriminate E].
  exists result. split; [reflexivity|].
  pose proof (single_result_invariant _ _ _ _ _ _ _ _ _ _ E) as Hinvariant.
  exact (proj1 (proj2 (proj2 (proj2 (proj2 (proj2 (proj2
           (proj2 Hinvariant)))))))).
Defined.

(** X19.  [onboard_developer_unified] returns a result only for a request
    whose department is in the configuration and whose tier that
    department allows, and only with the individual budget created.  The
    result names the user by the derived name, takes the budget limit of
    the user from the department (100 when it has none), names the group
    after the department, and carries the name of the budget in the
    configuration object. *)
Theorem unified_result_invariant
    (self : UnifiedOnboarding.UnifiedBCCEOnboarder)
    (email department access_tier manager_email use_case idp_provider
       : string) (w : world) (h : list call)
    (result : UnifiedOnboarding.OnboardingResult) (h' : list call) :
  run (UnifiedOnboarding.onboard_developer_unified self email department
         access_tier manager_email use_case idp_provider) w h
  = (Return result, h') ->
  (exists d,
     default ∅ (Config.departments (UnifiedOnboarding.config self))
       !! department = Some d
     ∧ access_tier ∈ default ["sandbox"] (Config.access_tiers d)
     ∧ UnifiedOnboarding.budget_limit (UnifiedOnboarding.user_info result)
       = default 100%Z (Config.budget_limit d))
  ∧ UnifiedOnboarding.developer_email result = email
  ∧ UnifiedOnboarding.username (UnifiedOnboarding.user_info result)
    = replace_at_dot email
  ∧ UnifiedOnboarding.group_name (UnifiedOnboarding.group_info result)
    = department
  ∧ UnifiedOnboarding.budget_name
      (UnifiedOnboarding.individual_budget
         (UnifiedOnboarding.governance_resources result))
    = Some ("BCCE-Individual-" +:+ replace_at_dot email)
  ∧ UnifiedOnboarding.governance_individual_budget
      (UnifiedOnboarding.unified_config (UnifiedOnboarding.config_files result))
    = Some ("BCCE-Individual-" +:+ replace_at_dot email).
Proof.
  unfold UnifiedOnboarding.onboard_developer_unified.
  rewrite run_try_reraise. intros H.
  apply run_bind_inv in H as ([] & h1 & Hvalidate & H).
  apply run_bind_inv in H as (info & h2 & Hidentity & H).
  apply run_bind_inv in H as (group & h3 & Hgroup & H).
  apply run_bind_inv in H as (resources & h4 & Hresources & H).
  cbv zeta in H.
  apply run_bind_inv in H as (files & h5 & Hfiles & H).
  apply run_bind_inv in H as ([] & h6 & _ & H).
  apply run_bind_inv in H as ([] & h7 & _ & H).
  unfold_run_in H. injection H as <- _. cbn.
  rewrite unified_validation in Hvalidate.
  destruct (default ∅ (Config.departments (UnifiedOnboarding.config self))
              !! department) as [d|] eqn:Hdepartment; [|done].
  destruct (bool_decide (access_tier ∈ _)) eqn:Htier; [|done].
  apply bool_decide_eq_true_1 in Htier.
  assert (UnifiedOnboarding.username info = replace_at_dot email
          ∧ UnifiedOnboarding.budget_limit info
            = default 100%Z (Config.budget_limit d)) as [Hname Hlimit].
  { unfold UnifiedOnboarding._create_cognito_user_enhanced in Hidentity.
    rewrite Hdepartment in Hidentity. unfold_run_in Hidentity.
    all_cases_in Hidentity. by injection Hidentity as <- _. }
  assert (UnifiedOnboarding.group_name group = department) as Hgroup_name.
  { unfold UnifiedOnboarding._assign_department_group in Hgroup.
    unfold_run_in Hgroup. all_cases_in Hgroup. by injection Hgroup as <- _. }
  assert (UnifiedOnboarding.budget_name
            (UnifiedOnboarding.individual_budget resources)
          = Some ("BCCE-Individual-" +:+ replace_at_dot email)) as Hbudget.
  { destruct (unified_governance_stage self email department access_tier
                w h3) as (resources' & Hrun & _ & _ & Hbudget).
    cbv zeta in Hrun. rewrite Hrun in Hresources.
    injection Hresources as <- _.
    destruct (service w h3 _); [done|].
    by rewrite (unified_files_need_the_budget self email info resources'
                  access_tier idp_provider w h4 Hbudget) in Hfiles. }
  split; [eauto|]. do 3 (split; [done|]). split; [done|].
  unfold UnifiedOnboarding._generate_unified_config,
    UnifiedOnboarding.individual_budget_limit in Hfiles.
  unfold_run_in Hfiles.
  destruct (UnifiedOnboarding.individual_budget resources); [|done].
  by injection Hfiles as <- _.
Qed.

(** The result for [dev@acme.com] on a fresh account has its budget. *)
Lemma unified_result_witness :
  exists result,
    fst (run (UnifiedOnboarding.onboard_developer_unified Fixtures.unified
                "dev@acme.com" "engineering" "sandbox" "cto@acme.com"
                "evaluation" "cognito")
           (Fixtures.at_time Fixtures.morning Fixtures.fresh_account) [])
    = Return result
    ∧ UnifiedOnboarding.budget_name
        (UnifiedOnboarding.individual_budget
           (UnifiedOnboarding.governance_resources result))
      = Some ("BCCE-Individual-" +:+ replace_at_dot "dev@acme.com").
Proof.
  destruct (run (UnifiedOnboarding.onboard_developer_unified Fixtures.unified
                   "dev@acme.com" "engineering" "sandbox" "cto@acme.com"
                   "evaluation" "cognito")
              (Fixtures.at_time Fixtures.morning Fixtures.fresh_account) [])
    as [[result|e] h'] eqn:E; [|vm_compute in E; discriminate E].
  exists result. split; [reflexivity|].
  exact (proj1 (proj2 (proj2 (proj2 (proj2
           (unified_result_invariant _ _ _ _ _ _ _ _ _ _ _ E)))))).
Defined.
